(** * Blogicum: the blog application's forms, routes and views

    A shallow embedding of [blog/forms.py], [blog/urls.py] and
    [blog/views.py].  Database tables are finite maps from primary key to
    row, a view is a function from the request, the clock and the database
    to a response and the database after the request. *)

From stdpp Require Import gmap strings list fin_maps sorting.
From Stdlib Require Import ZArith Lia.

Local Open Scope Z_scope.

(** ** blog.models

    [blog/models.py] is not part of the sources at hand; the rows below
    carry the attributes that forms.py and views.py read or write. *)

Module User.
Record t := mk {
  username : string;
  first_name : string;
  last_name : string;
  email : string
}.
End User.

(** Modelled from the spec: the Category model (blog/models.py is missing).
    "Category: has is_published flag and a slug". *)
Module Category.
Record t := mk {
  slug : string;
  is_published : bool
}.
End Category.

(** Modelled from the spec: the Post model (blog/models.py is missing).
    "Post: author (owner reference), category (optional reference),
    pub_date (timestamp), is_published (flag), text/title fields"; the
    location reference comes from the data model list of the spec and
    [created_at] from the exclude list of [PostForm].  References are
    primary keys, a missing category is [None]. *)
Module Post.
Record t := mk {
  title : string;
  text : string;
  pub_date : Z;
  author : Z;
  location : option Z;
  category : option Z;
  is_published : bool;
  created_at : Z
}.
End Post.

(** Modelled from the spec: the Comment model (blog/models.py is missing).
    "Comment: belongs to exactly one Post, authored by a user". *)
Module Comment.
Record t := mk {
  text : string;
  post : Z;
  author : Z;
  created_at : Z
}.
End Comment.

(** The database: one table per model, keyed by primary key. *)
Record DB := mkDB {
  users : gmap Z User.t;
  categories : gmap Z Category.t;
  locations : gset Z;
  posts : gmap Z Post.t;
  comments : gmap Z Comment.t
}.

Definition set_posts (db : DB) (ps : gmap Z Post.t) : DB :=
  mkDB (users db) (categories db) (locations db) ps (comments db).
Definition set_comments (db : DB) (cs : gmap Z Comment.t) : DB :=
  mkDB (users db) (categories db) (locations db) (posts db) cs.
Definition set_users (db : DB) (us : gmap Z User.t) : DB :=
  mkDB us (categories db) (locations db) (posts db) (comments db).

(** A model instance as a queryset yields it: primary key and row. *)
Abbreviation instance A := (Z * A)%type.

(** The primary key an insert assigns.  The database hands out a key
    that no row has; the model takes one past the largest in use. *)
Definition next_pk {A} (tbl : gmap Z A) : Z :=
  1 + map_fold (fun k _ acc => Z.max k acc) 0 tbl.

(** ** Requests, routes and responses *)

(** The methods the pages of the application send. *)
Inductive Method := GET | POST.

(** Values of submitted form data, after the wire format is decoded; a
    text value is the UTF-8 encoding of what was typed. *)
Inductive Value :=
| VStr (s : string)
| VInt (z : Z)
| VBool (b : bool).

(** The [page] query parameter of a listing request. *)
Inductive page_arg :=
| page_absent
| page_int (n : Z)
| page_last
| page_other.

(** [request.user]: [None] is the anonymous user, [Some (pk, row)] the
    user of the session. *)
Record Request := mkRequest {
  method : Method;
  user : option (instance User.t);
  page : page_arg;
  POST_data : gmap string Value
}.

(** The names of [urlpatterns], with their captured arguments. *)
Inductive Route :=
| index
| create_post
| post_detail (id : Z)
| edit_post (id : Z)
| delete_post (id : Z)
| category_posts (category_slug : string)
| profile (username : string)
| edit_profile
| add_comment (id : Z)
| edit_comment (id comment : Z)
| delete_comment (id comment : Z).

Inductive Target :=
| to_route (r : Route)
| to_login (next : Route).

Inductive Exception :=
| Http404
| AttributeError
| DoesNotExist
| MultipleObjectsReturned.

(** A post as a listing shows it: the instance and its annotation. *)
Record Row := mkRow {
  row_pk : Z;
  row_post : Post.t;
  comment_count : nat
}.

Inductive Context :=
| ListContext (page_obj : list Row)
| CategoryContext (category : instance Category.t) (page_obj : list Row)
| ProfileContext (owner : instance User.t) (page_obj : list Row)
| DetailContext (post : instance Post.t) (comments : list (instance Comment.t))
| FormContext (has_errors : bool)
| DeleteContext (object : Z).

Inductive Response :=
| TemplateResponse (template_name : string) (context : Context)
| HttpResponseRedirect (to : Target)
| HttpResponseNotFound
| HttpResponseNotAllowed
| ServerError (e : Exception).

(** Code that may raise. *)
Inductive Outcome (A : Type) :=
| Return (a : A)
| Raise (e : Exception).
Arguments Return {A} a.
Arguments Raise {A} e.

Global Instance Outcome_ret : MRet Outcome := fun A a => Return a.
Global Instance Outcome_bind : MBind Outcome := fun A B k m =>
  match m with
  | Return a => k a
  | Raise e => Raise e
  end.

(** What the framework answers when a view raises. *)
Definition response_for_exception (e : Exception) : Response :=
  match e with
  | Http404 => HttpResponseNotFound
  | _ => ServerError e
  end.

Definition respond (m : Outcome Response) : Response :=
  match m with
  | Return r => r
  | Raise e => response_for_exception e
  end.

(** ** Framework pieces the views rely on *)

(** [get_object_or_404] over the rows a filter leaves. *)
Definition get_object_or_404 {A} (qs : list (instance A)) : Outcome (instance A) :=
  match qs with
  | [] => Raise Http404
  | [x] => Return x
  | _ => Raise MultipleObjectsReturned
  end.

(** The largest key the database holds, a signed 64-bit integer. *)
Definition max_key : Z := 9223372036854775807.

(** The same by primary key, which the table is keyed by; the key is one
    that the database can hold, from 0 to [max_key]. *)
Definition get_by_pk {A} (tbl : gmap Z A) (pk : Z) : Outcome (instance A) :=
  match tbl !! pk with
  | Some x => Return (pk, x)
  | None => Raise Http404
  end.

(** [request.user == obj] for a user instance with primary key [pk]. *)
Definition user_is (req : Request) (pk : Z) : bool :=
  match user req with
  | Some (u, _) => bool_decide (u = pk)
  | None => false
  end.

(** [str(request.user)], the username. *)
Definition user_str (u : instance User.t) : string := User.username u.2.

(** [LoginRequiredMixin.dispatch]: the anonymous user is sent to the login
    page, everybody else reaches the next [dispatch] in the chain. *)
Definition LoginRequiredMixin_dispatch {S} (here : Route) (req : Request)
    (super_dispatch : instance User.t -> Response * S) (s : S) : Response * S :=
  match user req with
  | None => (HttpResponseRedirect (to_login here), s)
  | Some u => super_dispatch u
  end.

(** [ordering = ['-pub_date']]: newest first. *)
Definition newer_first (a b : instance Post.t) : Prop :=
  Post.pub_date b.2 <= Post.pub_date a.2.

Global Instance newer_first_dec a b : Decision (newer_first a b).
Proof. unfold newer_first. apply _. Defined.

(** Rows in the order of their primary keys. *)
Definition by_key {A} (a b : instance A) : Prop := a.1 <= b.1.

Global Instance by_key_dec {A} (a b : instance A) : Decision (by_key a b).
Proof. unfold by_key. apply _. Defined.

(** [ListView.get_queryset]: all posts under the view's [ordering]. *)
Definition ListView_get_queryset (db : DB) : list (instance Post.t) :=
  merge_sort newer_first (map_to_list (posts db)).

(** The [category__is_published=True] lookup: the join drops a post with no
    category. *)
Definition category__is_published (db : DB) (p : Post.t) : bool :=
  match Post.category p with
  | Some c =>
      match categories db !! c with
      | Some cat => Category.is_published cat
      | None => false
      end
  | None => false
  end.

(** [Count('comment')] for the post with primary key [pk]. *)
Definition Count_comment (db : DB) (pk : Z) : nat :=
  length (filter (fun c : instance Comment.t => Comment.post c.2 = pk)
                 (map_to_list (comments db))).

Definition annotate (db : DB) (qs : list (instance Post.t)) : list Row :=
  (fun x : instance Post.t => mkRow x.1 x.2 (Count_comment db x.1)) <$> qs.

(** [Paginator] with [orphans = 0] and [allow_empty_first_page = True]. *)
Definition Paginator_num_pages (per_page count : Z) : Z :=
  let hits := Z.max 1 count in
  (hits + per_page - 1) / per_page.

Definition Paginator_page {A} (per_page : Z) (object_list : list A) (number : Z)
  : Outcome (list A) :=
  let count := Z.of_nat (length object_list) in
  if decide (number < 1) then Raise Http404
  else if decide (Paginator_num_pages per_page count < number) then Raise Http404
  else
    let bottom := (number - 1) * per_page in
    let top := if decide (count <= bottom + per_page) then count
               else bottom + per_page in
    Return (take (Z.to_nat (top - bottom)) (drop (Z.to_nat bottom) object_list)).

(** [MultipleObjectMixin.paginate_queryset]. *)
Definition paginate_queryset {A} (per_page : Z) (object_list : list A)
    (arg : page_arg) : Outcome (list A) :=
  let count := Z.of_nat (length object_list) in
  match arg with
  | page_absent => Paginator_page per_page object_list 1
  | page_int n => Paginator_page per_page object_list n
  | page_last =>
      Paginator_page per_page object_list (Paginator_num_pages per_page count)
  | page_other => Raise Http404
  end.

(** [ModelForm]: the form has one field per name in [fields]; cleaning
    reads only those keys of the submitted data, and
    [construct_instance] assigns only those attributes. *)
Section ModelForm.
Context {M : Type}.
Variable clean_field : string -> option Value -> option (option Value).
Variable setattr : string -> option Value -> M -> M.

Definition full_clean (fields : list string) (data : gmap string Value)
  : option (gmap string (option Value)) :=
  foldr (fun name acc =>
           cleaned ← acc;
           v ← clean_field name (data !! name);
           Some (<[name := v]> cleaned))
        (Some ∅) fields.

Definition construct_instance (fields : list string)
    (cleaned_data : gmap string (option Value)) (obj : M) : M :=
  foldr (fun name o =>
           match cleaned_data !! name with
           | Some v => setattr name v o
           | None => o
           end)
        obj fields.
End ModelForm.

(** Text is held in its UTF-8 encoding, one byte per character of the
    string. *)
Definition utf8 (bytes : list nat) : string :=
  foldr (fun b s => String (Ascii.ascii_of_nat b) s) EmptyString bytes.

(** The characters for which [str.isspace] holds: U+0009..U+000D,
    U+001C..U+0020, U+0085, U+00A0, U+1680, U+2000..U+200A, U+2028,
    U+2029, U+202F, U+205F and U+3000, each in its encoding. *)
Definition whitespace : list string :=
  (utf8 <$> [[9]; [10]; [11]; [12]; [13]; [28]; [29]; [30]; [31]; [32];
             [194; 133]; [194; 160]; [225; 154; 128]]%nat)
  ++ ((fun k => utf8 [226; 128; k]%nat) <$> seq 128 11)
  ++ (utf8 <$> [[226; 128; 168]; [226; 128; 169]; [226; 128; 175];
                [226; 129; 159]; [227; 128; 128]]%nat).

Fixpoint drop_prefix (p s : string) : option string :=
  match p, s with
  | EmptyString, _ => Some s
  | String a p', String b s' =>
      if Ascii.eqb a b then drop_prefix p' s' else None
  | _, _ => None
  end.

(** The rest of [s] after the first entry of [table] that starts it. *)
Fixpoint drop_any (table : list string) (s : string) : option string :=
  match table with
  | [] => None
  | p :: table' =>
      match drop_prefix p s with
      | Some rest => Some rest
      | None => drop_any table' s
      end
  end.

(** Entries of [table] are taken off the front of [s] as long as there
    is one; every step takes at least a byte, so the length of [s] is
    fuel enough. *)
Fixpoint strip_left (table : list string) (fuel : nat) (s : string) : string :=
  match fuel with
  | O => s
  | S fuel' =>
      match drop_any table s with
      | Some rest => strip_left table fuel' rest
      | None => s
      end
  end.

Definition lstrip (s : string) : string :=
  strip_left whitespace (String.length s) s.

Definition rstrip (s : string) : string :=
  String.rev
    (strip_left (String.rev <$> whitespace) (String.length s) (String.rev s)).

(** [str.strip], as [CharField] applies it before it checks for empty. *)
Definition strip (s : string) : string := rstrip (lstrip s).

(** [ProhibitNullCharactersValidator], which every [CharField] runs. *)
Fixpoint has_null (s : string) : bool :=
  match s with
  | String c s' => Ascii.eqb c Ascii.zero || has_null s'
  | EmptyString => false
  end.

(** A required [CharField]. *)
Definition clean_CharField (raw : option Value) : option (option Value) :=
  match raw with
  | Some (VStr s) =>
      if decide (strip s = "") then None
      else if has_null (strip s) then None
      else Some (Some (VStr (strip s)))
  | _ => None
  end.

(** A [CharField] that may stay empty. *)
Definition clean_CharField_blank (raw : option Value) : option (option Value) :=
  match raw with
  | Some (VStr s) =>
      if has_null (strip s) then None else Some (Some (VStr (strip s)))
  | None => Some (Some (VStr ""))
  | _ => None
  end.

(** A required [DateTimeField]. *)
Definition clean_DateTimeField (raw : option Value) : option (option Value) :=
  match raw with
  | Some (VInt t) => Some (Some (VInt t))
  | _ => None
  end.

(** A [ModelChoiceField] over the primary keys [choices]; no choice is the
    empty value. *)
Definition clean_ModelChoiceField (choices : gset Z) (raw : option Value)
  : option (option Value) :=
  match raw with
  | None => Some None
  | Some (VInt k) => if decide (k ∈ choices) then Some (Some (VInt k)) else None
  | Some _ => None
  end.

(** ** blog/forms.py *)

Module CommentForm.
Definition Meta_fields : list string := ["text"].

Definition clean_field (name : string) (raw : option Value)
  : option (option Value) :=
  if decide (name = "text") then clean_CharField raw else None.

Definition setattr (name : string) (v : option Value) (c : Comment.t)
  : Comment.t :=
  if decide (name = "text") then
    match v with
    | Some (VStr s) =>
        Comment.mk s (Comment.post c) (Comment.author c) (Comment.created_at c)
    | _ => c
    end
  else if decide (name = "post") then
    match v with
    | Some (VInt k) =>
        Comment.mk (Comment.text c) k (Comment.author c) (Comment.created_at c)
    | _ => c
    end
  else if decide (name = "author") then
    match v with
    | Some (VInt k) =>
        Comment.mk (Comment.text c) (Comment.post c) k (Comment.created_at c)
    | _ => c
    end
  else if decide (name = "created_at") then
    match v with
    | Some (VInt t) =>
        Comment.mk (Comment.text c) (Comment.post c) (Comment.author c) t
    | _ => c
    end
  else c.

Definition is_valid (data : gmap string Value)
  : option (gmap string (option Value)) :=
  full_clean clean_field Meta_fields data.

Definition instance_of (data : gmap string (option Value)) (c : Comment.t)
  : Comment.t :=
  construct_instance setattr Meta_fields data c.
End CommentForm.

Module PostForm.
(** The fields of the Post model, in declaration order. *)
Definition model_fields : list string :=
  ["title"; "text"; "pub_date"; "author"; "location"; "category";
   "is_published"; "created_at"].

Definition Meta_exclude : list string :=
  ["is_published"; "author"; "created_at"].

Definition fields : list string :=
  filter (fun name => name ∉ Meta_exclude) model_fields.

Definition clean_field (db : DB) (name : string) (raw : option Value)
  : option (option Value) :=
  if decide (name = "title") then clean_CharField raw
  else if decide (name = "text") then clean_CharField raw
  else if decide (name = "pub_date") then clean_DateTimeField raw
  else if decide (name = "location") then
    clean_ModelChoiceField (locations db) raw
  else if decide (name = "category") then
    clean_ModelChoiceField (dom (categories db)) raw
  else if decide (name = "author") then
    clean_ModelChoiceField (dom (users db)) raw
  else if decide (name = "is_published") then
    match raw with
    | Some (VBool b) => Some (Some (VBool b))
    | None => Some (Some (VBool false))
    | _ => None
    end
  else if decide (name = "created_at") then clean_DateTimeField raw
  else None.

Definition setattr (name : string) (v : option Value) (p : Post.t) : Post.t :=
  let '(Post.mk title text pub_date author location category
                is_published created_at) := p in
  if decide (name = "title") then
    match v with
    | Some (VStr s) =>
        Post.mk s text pub_date author location category is_published created_at
    | _ => p
    end
  else if decide (name = "text") then
    match v with
    | Some (VStr s) =>
        Post.mk title s pub_date author location category is_published created_at
    | _ => p
    end
  else if decide (name = "pub_date") then
    match v with
    | Some (VInt t) =>
        Post.mk title text t author location category is_published created_at
    | _ => p
    end
  else if decide (name = "author") then
    match v with
    | Some (VInt k) =>
        Post.mk title text pub_date k location category is_published created_at
    | _ => p
    end
  else if decide (name = "location") then
    match v with
    | Some (VInt k) =>
        Post.mk title text pub_date author (Some k) category is_published
                created_at
    | None =>
        Post.mk title text pub_date author None category is_published created_at
    | _ => p
    end
  else if decide (name = "category") then
    match v with
    | Some (VInt k) =>
        Post.mk title text pub_date author location (Some k) is_published
                created_at
    | None =>
        Post.mk title text pub_date author location None is_published created_at
    | _ => p
    end
  else if decide (name = "is_published") then
    match v with
    | Some (VBool b) =>
        Post.mk title text pub_date author location category b created_at
    | _ => p
    end
  else if decide (name = "created_at") then
    match v with
    | Some (VInt t) =>
        Post.mk title text pub_date author location category is_published t
    | _ => p
    end
  else p.

Definition is_valid (db : DB) (data : gmap string Value)
  : option (gmap string (option Value)) :=
  full_clean (clean_field db) fields data.

Definition instance_of (data : gmap string (option Value)) (p : Post.t)
  : Post.t :=
  construct_instance setattr fields data p.
End PostForm.

Module ProfileForm.
Definition Meta_fields : list string :=
  ["first_name"; "last_name"; "username"; "email"].

(** [username] is required and unique; [pk] is the user being edited.
    The checks on the characters and the length of a name and on the form
    of an e-mail address, which can only refuse more, are left out. *)
Definition clean_field (db : DB) (pk : Z) (name : string) (raw : option Value)
  : option (option Value) :=
  if decide (name = "username") then
    match clean_CharField raw with
    | Some (Some (VStr s)) =>
        if decide (Exists (fun u : instance User.t =>
                             u.1 <> pk /\ User.username u.2 = s)
                          (map_to_list (users db)))
        then None else Some (Some (VStr s))
    | _ => None
    end
  else if decide (name ∈ Meta_fields) then clean_CharField_blank raw
  else None.

Definition setattr (name : string) (v : option Value) (u : User.t) : User.t :=
  match v with
  | Some (VStr s) =>
      if decide (name = "first_name") then
        User.mk (User.username u) s (User.last_name u) (User.email u)
      else if decide (name = "last_name") then
        User.mk (User.username u) (User.first_name u) s (User.email u)
      else if decide (name = "username") then
        User.mk s (User.first_name u) (User.last_name u) (User.email u)
      else if decide (name = "email") then
        User.mk (User.username u) (User.first_name u) (User.last_name u) s
      else u
  | _ => u
  end.

Definition is_valid (db : DB) (pk : Z) (data : gmap string Value)
  : option (gmap string (option Value)) :=
  full_clean (clean_field db pk) Meta_fields data.

Definition instance_of (data : gmap string (option Value)) (u : User.t)
  : User.t :=
  construct_instance setattr Meta_fields data u.
End ProfileForm.

(** ** blog/views.py: the listings *)

Module PostListView.
Definition paginate_by : Z := 10.
Definition template_name : string := "blog/index.html".

Definition get_queryset (db : DB) (now : Z) : list Row :=
  annotate db
    (filter (fun x : instance Post.t =>
               category__is_published db x.2 = true
               /\ Post.is_published x.2 = true
               /\ Post.pub_date x.2 <= now)
            (ListView_get_queryset db)).

Definition get (req : Request) (now : Z) (db : DB) : Outcome Response :=
  page_obj ← paginate_queryset paginate_by (get_queryset db now) (page req);
  Return (TemplateResponse template_name (ListContext page_obj)).

Definition as_view (req : Request) (now : Z) (db : DB) : Response * DB :=
  match method req with
  | GET => (respond (get req now db), db)
  | POST => (HttpResponseNotAllowed, db)
  end.
End PostListView.

Module PostCategoriesView.
Definition paginate_by : Z := 10.
Definition template_name : string := "blog/category.html".

Definition category (db : DB) (category_slug : string)
  : Outcome (instance Category.t) :=
  get_object_or_404
    (filter (fun c : instance Category.t =>
               Category.slug c.2 = category_slug
               /\ Category.is_published c.2 = true)
            (map_to_list (categories db))).

Definition get_queryset (db : DB) (now : Z) (category_slug : string)
  : Outcome (list Row) :=
  cat ← category db category_slug;
  Return (annotate db
    (filter (fun x : instance Post.t =>
               Post.category x.2 = Some cat.1
               /\ Post.is_published x.2 = true
               /\ Post.pub_date x.2 <= now)
            (ListView_get_queryset db))).

Definition get (req : Request) (now : Z) (db : DB) (category_slug : string)
  : Outcome Response :=
  qs ← get_queryset db now category_slug;
  page_obj ← paginate_queryset paginate_by qs (page req);
  cat ← category db category_slug;
  Return (TemplateResponse template_name (CategoryContext cat page_obj)).

Definition as_view (category_slug : string) (req : Request) (now : Z) (db : DB)
  : Response * DB :=
  match method req with
  | GET => (respond (get req now db category_slug), db)
  | POST => (HttpResponseNotAllowed, db)
  end.
End PostCategoriesView.

Module ProfileDetailView.
Definition paginate_by : Z := 10.
Definition template_name : string := "blog/profile.html".

Definition owner (db : DB) (username : string) : Outcome (instance User.t) :=
  get_object_or_404
    (filter (fun u : instance User.t => User.username u.2 = username)
            (map_to_list (users db))).

Definition get_queryset (req : Request) (now : Z) (db : DB) (username : string)
  : Outcome (list Row) :=
  o ← owner db username;
  if user_is req o.1 then
    Return (annotate db
      (filter (fun x : instance Post.t => Post.author x.2 = o.1)
              (ListView_get_queryset db)))
  else
    Return (annotate db
      (filter (fun x : instance Post.t =>
                 Post.author x.2 = o.1
                 /\ Post.is_published x.2 = true
                 /\ Post.pub_date x.2 <= now)
              (ListView_get_queryset db))).

Definition get (req : Request) (now : Z) (db : DB) (username : string)
  : Outcome Response :=
  qs ← get_queryset req now db username;
  page_obj ← paginate_queryset paginate_by qs (page req);
  o ← owner db username;
  Return (TemplateResponse template_name (ProfileContext o page_obj)).

Definition as_view (username : string) (req : Request) (now : Z) (db : DB)
  : Response * DB :=
  match method req with
  | GET => (respond (get req now db username), db)
  | POST => (HttpResponseNotAllowed, db)
  end.
End ProfileDetailView.

(** ** blog/views.py: one post *)

Module PostDetailView.
Definition template_name : string := "blog/detail.html".

(** [post.category.is_published]: attribute access on the related row. *)
Definition category_is_published (db : DB) (p : Post.t) : Outcome bool :=
  match Post.category p with
  | None => Raise AttributeError
  | Some c =>
      match categories db !! c with
      | Some cat => Return (Category.is_published cat)
      | None => Raise DoesNotExist
      end
  end.

Definition get_object (req : Request) (now : Z) (db : DB) (id : Z)
  : Outcome (instance Post.t) :=
  post ← get_by_pk (posts db) id;
  if user_is req (Post.author post.2) then Return post
  else
    shown ← (if Post.is_published post.2 then
               if decide (Post.pub_date post.2 <= now)
               then category_is_published db post.2
               else Return false
             else Return false);
    if (shown : bool) then Return post else Raise Http404.

(** [self.object.comment]: the comments that refer to the post, in the
    order of their keys, which is the order they were inserted in. *)
Definition get (req : Request) (now : Z) (db : DB) (id : Z) : Outcome Response :=
  object ← get_object req now db id;
  Return (TemplateResponse template_name
    (DetailContext object
       (merge_sort by_key
          (filter (fun c : instance Comment.t => Comment.post c.2 = object.1)
                  (map_to_list (comments db)))))).

Definition as_view (id : Z) (req : Request) (now : Z) (db : DB)
  : Response * DB :=
  match method req with
  | GET => (respond (get req now db id), db)
  | POST => (HttpResponseNotAllowed, db)
  end.
End PostDetailView.

Module PostCreateView.
Definition template_name : string := "blog/create.html".

(** [Post()]: an instance before the form and [form_valid] fill it;
    [is_published_default] is the default the model declares. *)
Definition blank (is_published_default : bool) : Post.t :=
  Post.mk "" "" 0 0 None None is_published_default 0.

Definition get_success_url (u : instance User.t) : Target :=
  to_route (profile (user_str u)).

(** [form_valid]: the author is the request's user; saving assigns the
    primary key, and the model stamps [created_at] with the time of the
    insert. *)
Definition form_valid (u : instance User.t) (now : Z) (db : DB) (obj : Post.t)
  : Response * DB :=
  let obj := PostForm.setattr "author" (Some (VInt u.1)) obj in
  let obj := PostForm.setattr "created_at" (Some (VInt now)) obj in
  (HttpResponseRedirect (get_success_url u),
   set_posts db (<[next_pk (posts db) := obj]> (posts db))).

Definition post (is_published_default : bool) (u : instance User.t)
    (req : Request) (now : Z) (db : DB) : Response * DB :=
  match PostForm.is_valid db (POST_data req) with
  | Some cleaned_data =>
      form_valid u now db
        (PostForm.instance_of cleaned_data (blank is_published_default))
  | None => (TemplateResponse template_name (FormContext true), db)
  end.

Definition as_view (is_published_default : bool) (req : Request) (now : Z)
    (db : DB) : Response * DB :=
  LoginRequiredMixin_dispatch create_post req
    (fun u =>
       match method req with
       | GET => (TemplateResponse template_name (FormContext false), db)
       | POST => post is_published_default u req now db
       end) db.
End PostCreateView.

Module PostEditView.
Definition template_name : string := "blog/create.html".

Definition get_object (db : DB) (id : Z) : Outcome (instance Post.t) :=
  get_by_pk (posts db) id.

Definition get_success_url (id : Z) : Target := to_route (post_detail id).

Definition get (db : DB) (id : Z) : Response * DB :=
  (respond (_ ← get_object db id;
            Return (TemplateResponse template_name (FormContext false))), db).

Definition post (req : Request) (db : DB) (id : Z) : Response * DB :=
  match get_object db id with
  | Raise e => (response_for_exception e, db)
  | Return object =>
      match PostForm.is_valid db (POST_data req) with
      | Some cleaned_data =>
          (HttpResponseRedirect (get_success_url id),
           set_posts db
             (<[object.1 := PostForm.instance_of cleaned_data object.2]>
                (posts db)))
      | None => (TemplateResponse template_name (FormContext true), db)
      end
  end.

(** The view's own [dispatch] comes first in the method resolution order;
    [super().dispatch] is the one of [LoginRequiredMixin]. *)
Definition dispatch (id : Z) (req : Request) (db : DB) : Response * DB :=
  match get_object db id with
  | Raise e => (response_for_exception e, db)
  | Return object =>
      if negb (user_is req (Post.author object.2)) then
        (HttpResponseRedirect (to_route (post_detail id)), db)
      else
        LoginRequiredMixin_dispatch (edit_post id) req
          (fun _ =>
             match method req with
             | GET => get db id
             | POST => post req db id
             end) db
  end.

Definition as_view (id : Z) (req : Request) (now : Z) (db : DB)
  : Response * DB := dispatch id req db.
End PostEditView.

Module PostDeleteView.
Definition template_name : string := "blog/create.html".

Definition get_object (db : DB) (id : Z) : Outcome (instance Post.t) :=
  get_by_pk (posts db) id.

Definition get_success_url (u : instance User.t) : Target :=
  to_route (profile (user_str u)).

Definition get (db : DB) (id : Z) : Response * DB :=
  (respond (object ← get_object db id;
            Return (TemplateResponse template_name (DeleteContext object.1))),
   db).

(** Deleting a post takes its comments with it. *)
Definition post (u : instance User.t) (db : DB) (id : Z) : Response * DB :=
  match get_object db id with
  | Raise e => (response_for_exception e, db)
  | Return object =>
      (HttpResponseRedirect (get_success_url u),
       set_comments (set_posts db (delete object.1 (posts db)))
         (filter (fun c : instance Comment.t => Comment.post c.2 <> object.1)
                 (comments db)))
  end.

Definition dispatch (id : Z) (req : Request) (db : DB) : Response * DB :=
  match get_object db id with
  | Raise e => (response_for_exception e, db)
  | Return object =>
      if negb (user_is req (Post.author object.2)) then
        (HttpResponseRedirect (to_route (post_detail id)), db)
      else
        LoginRequiredMixin_dispatch (delete_post id) req
          (fun u =>
             match method req with
             | GET => get db id
             | POST => post u db id
             end) db
  end.

Definition as_view (id : Z) (req : Request) (now : Z) (db : DB)
  : Response * DB := dispatch id req db.
End PostDeleteView.

Module ProfileEditView.
Definition template_name : string := "blog/user.html".

(** [get_object] is the request's user; the saved instance is that same
    object, so the redirect carries the username just saved. *)
Definition post (u : instance User.t) (req : Request) (db : DB)
  : Response * DB :=
  match ProfileForm.is_valid db u.1 (POST_data req) with
  | Some cleaned_data =>
      let saved := ProfileForm.instance_of cleaned_data u.2 in
      (HttpResponseRedirect (to_route (profile (user_str (u.1, saved)))),
       set_users db (<[u.1 := saved]> (users db)))
  | None => (TemplateResponse template_name (FormContext true), db)
  end.

Definition as_view (req : Request) (now : Z) (db : DB) : Response * DB :=
  LoginRequiredMixin_dispatch edit_profile req
    (fun u =>
       match method req with
       | GET => (TemplateResponse template_name (FormContext false), db)
       | POST => post u req db
       end) db.
End ProfileEditView.

(** ** blog/views.py: comments *)

Module CommentCreateView.
Definition template_name : string := "blog/comment.html".

Definition blank : Comment.t := Comment.mk "" 0 0 0.

Definition posting (now : Z) (db : DB) (id : Z) : Outcome (instance Post.t) :=
  get_object_or_404
    (filter (fun x : instance Post.t =>
               x.1 = id
               /\ Post.pub_date x.2 <= now
               /\ Post.is_published x.2 = true
               /\ category__is_published db x.2 = true)
            (map_to_list (posts db))).

(** [form_valid]: author and post are set here; [posting] is looked up
    at this point and not before. *)
Definition form_valid (u : instance User.t) (now : Z) (db : DB) (id : Z)
    (obj : Comment.t) : Response * DB :=
  match posting now db id with
  | Raise e => (response_for_exception e, db)
  | Return p =>
      let obj := CommentForm.setattr "author" (Some (VInt u.1)) obj in
      let obj := CommentForm.setattr "post" (Some (VInt p.1)) obj in
      let obj := CommentForm.setattr "created_at" (Some (VInt now)) obj in
      (HttpResponseRedirect (to_route (post_detail p.1)),
       set_comments db (<[next_pk (comments db) := obj]> (comments db)))
  end.

Definition post (u : instance User.t) (req : Request) (now : Z) (db : DB)
    (id : Z) : Response * DB :=
  match CommentForm.is_valid (POST_data req) with
  | Some cleaned_data =>
      form_valid u now db id (CommentForm.instance_of cleaned_data blank)
  | None => (TemplateResponse template_name (FormContext true), db)
  end.

Definition as_view (id : Z) (req : Request) (now : Z) (db : DB)
  : Response * DB :=
  LoginRequiredMixin_dispatch (add_comment id) req
    (fun u =>
       match method req with
       | GET => (TemplateResponse template_name (FormContext false), db)
       | POST => post u req now db id
       end) db.
End CommentCreateView.

Module CommentUpdateView.
Definition template_name : string := "blog/comment.html".

(** [pk_url_kwarg = 'comment']: the object is the comment with that key. *)
Definition get_object (db : DB) (comment : Z) : Outcome (instance Comment.t) :=
  get_by_pk (comments db) comment.

Definition get_success_url (id : Z) : Target := to_route (post_detail id).

Definition get (db : DB) (comment : Z) : Response * DB :=
  (respond (_ ← get_object db comment;
            Return (TemplateResponse template_name (FormContext false))), db).

Definition post (req : Request) (db : DB) (id comment : Z) : Response * DB :=
  match get_object db comment with
  | Raise e => (response_for_exception e, db)
  | Return object =>
      match CommentForm.is_valid (POST_data req) with
      | Some cleaned_data =>
          (HttpResponseRedirect (get_success_url id),
           set_comments db
             (<[object.1 := CommentForm.instance_of cleaned_data object.2]>
                (comments db)))
      | None => (TemplateResponse template_name (FormContext true), db)
      end
  end.

Definition dispatch (id comment : Z) (req : Request) (db : DB)
  : Response * DB :=
  match get_object db comment with
  | Raise e => (response_for_exception e, db)
  | Return object =>
      if negb (user_is req (Comment.author object.2)) then
        (HttpResponseRedirect (to_route (post_detail id)), db)
      else
        LoginRequiredMixin_dispatch (edit_comment id comment) req
          (fun _ =>
             match method req with
             | GET => get db comment
             | POST => post req db id comment
             end) db
  end.

Definition as_view (id comment : Z) (req : Request) (now : Z) (db : DB)
  : Response * DB := dispatch id comment req db.
End CommentUpdateView.

Module CommentDeleteView.
Definition template_name : string := "blog/comment.html".

Definition get_object (db : DB) (comment : Z) : Outcome (instance Comment.t) :=
  get_by_pk (comments db) comment.

Definition get_success_url (id : Z) : Target := to_route (post_detail id).

Definition get (db : DB) (comment : Z) : Response * DB :=
  (respond (object ← get_object db comment;
            Return (TemplateResponse template_name (DeleteContext object.1))),
   db).

Definition post (db : DB) (id comment : Z) : Response * DB :=
  match get_object db comment with
  | Raise e => (response_for_exception e, db)
  | Return object =>
      (HttpResponseRedirect (get_success_url id),
       set_comments db (delete object.1 (comments db)))
  end.

Definition dispatch (id comment : Z) (req : Request) (db : DB)
  : Response * DB :=
  match get_object db comment with
  | Raise e => (response_for_exception e, db)
  | Return object =>
      if negb (user_is req (Comment.author object.2)) then
        (HttpResponseRedirect (to_route (post_detail id)), db)
      else
        LoginRequiredMixin_dispatch (delete_comment id comment) req
          (fun _ =>
             match method req with
             | GET => get db comment
             | POST => post db id comment
             end) db
  end.

Definition as_view (id comment : Z) (req : Request) (now : Z) (db : DB)
  : Response * DB := dispatch id comment req db.
End CommentDeleteView.

(** ** blog/urls.py *)

Definition urlpatterns (is_published_default : bool) (r : Route)
  : Request -> Z -> DB -> Response * DB :=
  match r with
  | index => PostListView.as_view
  | create_post => PostCreateView.as_view is_published_default
  | post_detail id => PostDetailView.as_view id
  | edit_post id => PostEditView.as_view id
  | delete_post id => PostDeleteView.as_view id
  | category_posts category_slug => PostCategoriesView.as_view category_slug
  | profile username => ProfileDetailView.as_view username
  | edit_profile => ProfileEditView.as_view
  | add_comment id => CommentCreateView.as_view id
  | edit_comment id comment => CommentUpdateView.as_view id comment
  | delete_comment id comment => CommentDeleteView.as_view id comment
  end.

(** The visibility predicate of the spec: published, category published,
    not dated in the future. *)
Definition publicly_visible (db : DB) (now : Z) (p : Post.t) : Prop :=
  Post.is_published p = true
  /\ (exists c cat, Post.category p = Some c
                    /\ categories db !! c = Some cat
                    /\ Category.is_published cat = true)
  /\ Post.pub_date p <= now.

(** The posts a listing holds, without the annotation. *)
Definition listed (rows : list Row) (x : instance Post.t) : Prop :=
  exists n, mkRow x.1 x.2 n ∈ rows.

(** Newest first, on annotated rows. *)
Definition by_pub_date_desc (a b : Row) : Prop :=
  Post.pub_date (row_post b) <= Post.pub_date (row_post a).

(** The page a listing response carries. *)
Definition page_obj_of (ctx : Context) : option (list Row) :=
  match ctx with
  | ListContext pg | CategoryContext _ pg | ProfileContext _ pg => Some pg
  | _ => None
  end.

(** A post appears in the listing a view serves to [viewer] when some page
    of it, requested with GET, shows the post. *)
Definition appears_in (view : Request -> Z -> DB -> Response * DB)
    (viewer : option (instance User.t)) (now : Z) (db : DB)
    (x : instance Post.t) : Prop :=
  exists pa data tpl ctx pg n,
    (view (mkRequest GET viewer pa data) now db).1 = TemplateResponse tpl ctx
    /\ page_obj_of ctx = Some pg
    /\ mkRow x.1 x.2 n ∈ pg.

(** A slug names one category and a username one user, so that the
    lookups by slug and by username find at most one row. *)
Definition unique_slugs (db : DB) : Prop :=
  forall i j a b,
    categories db !! i = Some a -> categories db !! j = Some b ->
    Category.slug a = Category.slug b -> i = j.

Definition unique_usernames (db : DB) : Prop :=
  forall i j a b,
    users db !! i = Some a -> users db !! j = Some b ->
    User.username a = User.username b -> i = j.

(** A field is left blank when nothing is submitted under its name or
    what is submitted is white space only. *)
Definition left_blank (data : gmap string Value) (name : string) : Prop :=
  data !! name = None
  \/ exists s, data !! name = Some (VStr s) /\ strip s = "".

(** The routes that serve a listing. *)
Definition is_listing (r : Route) : Prop :=
  match r with
  | index | category_posts _ | profile _ => True
  | _ => False
  end.

(** The reading under which any comment submission to a post that is not
    publicly visible is answered with not-found. *)
Definition every_comment_on_hidden_post_is_not_found : Prop :=
  forall d db now id p v (req : Request),
    posts db !! id = Some p ->
    ~ publicly_visible db now p ->
    user req = Some v ->
    method req = POST ->
    (urlpatterns d (add_comment id) req now db).1 = HttpResponseNotFound.

(** ** Sample data *)

Definition alice : User.t := User.mk "alice" "Alice" "A" "alice@example.org".
Definition bob : User.t := User.mk "bob" "Bob" "B" "bob@example.org".

Definition travel : Category.t := Category.mk "travel" true.
Definition drafts : Category.t := Category.mk "drafts" false.

(** Alice's posts: one public, one unpublished, one under the unpublished
    category, one with no category, one dated in the future. *)
Definition post_public : Post.t :=
  Post.mk "Lisbon" "Trams" 100 1 None (Some 1) true 90.
Definition post_unpublished : Post.t :=
  Post.mk "Notes" "Later" 100 1 None (Some 1) false 91.
Definition post_hidden_category : Post.t :=
  Post.mk "Porto" "Bridges" 110 1 None (Some 2) true 92.
Definition post_no_category : Post.t :=
  Post.mk "Misc" "Odds" 120 1 None None true 93.
Definition post_future : Post.t :=
  Post.mk "Plans" "Soon" 300 1 None (Some 1) true 94.

Definition comment_by_bob : Comment.t := Comment.mk "Nice" 1 2 150.
Definition comment_by_alice : Comment.t := Comment.mk "Thanks" 1 1 160.

Definition sample_db : DB :=
  mkDB {[ 1 := alice; 2 := bob ]}
       {[ 1 := travel; 2 := drafts ]}
       ∅
       {[ 1 := post_public; 2 := post_unpublished;
          3 := post_hidden_category; 4 := post_no_category;
          5 := post_future ]}
       {[ 1 := comment_by_bob; 2 := comment_by_alice ]}.

Definition sample_now : Z := 200.

Definition request_of (m : Method) (viewer : option (instance User.t))
    (data : gmap string Value) : Request :=
  mkRequest m viewer page_absent data.

(** * Properties *)

(** ** Tables and lookups *)

Lemma next_pk_above {A} (tbl : gmap Z A) k :
  is_Some (tbl !! k) -> k < next_pk tbl.
Proof.
  unfold next_pk.
  apply (map_fold_weak_ind
           (fun r (m : gmap Z A) => is_Some (m !! k) -> k < 1 + r)).
  - rewrite lookup_empty. intros [? ?]; discriminate.
  - intros i x m r _ IH. rewrite lookup_insert. case_decide.
    + subst. lia.
    + intros Hk. specialize (IH Hk). lia.
Qed.

Lemma next_pk_fresh {A} (tbl : gmap Z A) : tbl !! next_pk tbl = None.
Proof.
  destruct (tbl !! next_pk tbl) eqn:E; [|done].
  assert (next_pk tbl < next_pk tbl) by (apply next_pk_above; eauto). lia.
Qed.

Section get_object.
Context {A : Type} (P : instance A -> Prop) `{!forall x, Decision (P x)}.

Lemma filter_all_equal (l : list (instance A)) x :
  NoDup l -> x ∈ l -> P x -> (forall y, y ∈ l -> P y -> y = x) ->
  filter P l = [x].
Proof.
  intros Hnd Hx HP Huniq.
  assert (Hin : x ∈ filter P l) by (apply list_elem_of_filter; done).
  assert (Hnd' : NoDup (filter P l)) by (by apply NoDup_filter).
  assert (Hall : forall y, y ∈ filter P l -> y = x).
  { intros y [? ?]%list_elem_of_filter. by apply Huniq. }
  destruct (filter P l) as [|a [|b k]].
  - by apply elem_of_nil in Hin.
  - f_equal. apply Hall. left.
  - exfalso. apply NoDup_cons in Hnd' as [Hnot _]. apply Hnot.
    rewrite (Hall a), (Hall b); [left | right; left | left].
Qed.

Lemma get_object_or_404_unique (l : list (instance A)) x :
  NoDup l -> x ∈ l -> P x -> (forall y, y ∈ l -> P y -> y = x) ->
  get_object_or_404 (filter P l) = Return x.
Proof. intros. by erewrite filter_all_equal. Qed.

Lemma get_object_or_404_none (l : list (instance A)) :
  (forall y, y ∈ l -> ~ P y) ->
  get_object_or_404 (filter P l) = Raise Http404.
Proof.
  intros Hno. destruct (filter P l) as [|a k] eqn:E; [done|].
  assert (a ∈ filter P l) as [? ?]%list_elem_of_filter by (rewrite E; left).
  exfalso. by eapply Hno.
Qed.

Lemma get_object_or_404_Return (l : list (instance A)) x :
  get_object_or_404 (filter P l) = Return x -> x ∈ l /\ P x.
Proof.
  destruct (filter P l) as [|a [|b k]] eqn:E; simpl; try discriminate.
  intros [= <-].
  assert (a ∈ filter P l) as [? ?]%list_elem_of_filter by (rewrite E; left).
  done.
Qed.
End get_object.

(** ** Ordering and pages *)

Example strip_spaces : strip "  two words  " = "two words".
Proof. reflexivity. Qed.

Example strip_no_break_space : strip (utf8 [194; 160]%nat) = "".
Proof. reflexivity. Qed.

Example strip_wide_blanks :
  strip (utf8 [227; 128; 128; 104; 105; 32; 226; 128; 137; 194; 133]%nat)
  = "hi".
Proof. reflexivity. Qed.

Example strip_keeps_zero_width_space :
  strip (utf8 [226; 128; 139]%nat) = utf8 [226; 128; 139]%nat.
Proof. reflexivity. Qed.

Example third_page_of_25 :
  Paginator_page 10 (seq 1 25) 3 = Return [21; 22; 23; 24; 25]%nat.
Proof. reflexivity. Qed.

Example fourth_page_of_25 : Paginator_page 10 (seq 1 25) 4 = Raise Http404.
Proof. reflexivity. Qed.

Example last_page_of_20 :
  paginate_queryset 10 (seq 1 20) page_last = Return (seq 11 10).
Proof. reflexivity. Qed.

Example first_page_of_nothing :
  paginate_queryset 10 (@nil nat) page_absent = Return [].
Proof. reflexivity. Qed.

Global Instance newer_first_total : Total newer_first.
Proof. intros a b. unfold newer_first. lia. Qed.

Global Instance newer_first_trans : Transitive newer_first.
Proof. intros a b c. unfold newer_first. lia. Qed.

Lemma StronglySorted_sublist {A} (R : relation A) (l k : list A) :
  l `sublist_of` k -> StronglySorted R k -> StronglySorted R l.
Proof.
  induction 1 as [|x l k Hs IH|x l k Hs IH]; intros Hk.
  - constructor.
  - apply StronglySorted_cons in Hk as [Hall Hk].
    apply StronglySorted_cons. split; [|auto].
    apply Forall_forall. intros y Hy.
    eapply Forall_forall in Hall; [done|]. by eapply elem_of_sublist.
  - apply StronglySorted_cons in Hk as [_ Hk]. auto.
Qed.

Lemma ListView_get_queryset_sorted db :
  StronglySorted newer_first (ListView_get_queryset db).
Proof. apply StronglySorted_merge_sort; apply _. Qed.

Lemma ListView_get_queryset_elem db (x : instance Post.t) :
  x ∈ ListView_get_queryset db <-> posts db !! x.1 = Some x.2.
Proof.
  unfold ListView_get_queryset. rewrite merge_sort_Permutation.
  apply elem_of_map_to_list'.
Qed.

Lemma annotate_sorted db (qs : list (instance Post.t)) :
  StronglySorted newer_first qs ->
  StronglySorted by_pub_date_desc (annotate db qs).
Proof.
  unfold annotate. apply StronglySorted_fmap. intros a b. done.
Qed.

Lemma annotate_filter_sorted db (P : instance Post.t -> Prop)
    `{!forall x, Decision (P x)} :
  StronglySorted by_pub_date_desc
    (annotate db (filter P (ListView_get_queryset db))).
Proof.
  apply annotate_sorted.
  eapply StronglySorted_sublist; [apply sublist_filter|].
  apply ListView_get_queryset_sorted.
Qed.

Lemma listed_annotate db (qs : list (instance Post.t)) x :
  listed (annotate db qs) x <-> x ∈ qs.
Proof.
  unfold listed, annotate. split.
  - intros [n (y & Hy & Hin)%list_elem_of_fmap]. destruct x, y.
    simpl in *. by inversion Hy; subst.
  - intros Hin. exists (Count_comment db x.1).
    apply list_elem_of_fmap. exists x. done.
Qed.

Lemma Paginator_page_Return {A} (per_page : Z) (l pg : list A) n :
  0 < per_page ->
  Paginator_page per_page l n = Return pg ->
  pg `sublist_of` l /\ (Z.of_nat (length pg) <= per_page).
Proof.
  intros Hpp. unfold Paginator_page.
  repeat case_decide; try discriminate; intros [= <-]; split.
  - etrans; [apply sublist_take | apply sublist_drop].
  - rewrite length_take. lia.
  - etrans; [apply sublist_take | apply sublist_drop].
  - rewrite length_take. lia.
Qed.

Lemma paginate_queryset_Return {A} (per_page : Z) (l pg : list A) arg :
  0 < per_page ->
  paginate_queryset per_page l arg = Return pg ->
  pg `sublist_of` l /\ (Z.of_nat (length pg) <= per_page).
Proof.
  intros Hpp. destruct arg; simpl; try discriminate;
    by apply Paginator_page_Return.
Qed.

Lemma Paginator_page_cover {A} (per_page : Z) (l : list A) x :
  0 < per_page ->
  x ∈ l ->
  exists n pg, Paginator_page per_page l n = Return pg /\ x ∈ pg.
Proof.
  intros Hpp [i Hi]%list_elem_of_lookup_1.
  pose proof (lookup_lt_Some _ _ _ Hi) as Hlen.
  set (q := Z.of_nat i / per_page).
  assert (Hq0 : 0 <= q) by (apply Z.div_pos; lia).
  assert (Hlo : q * per_page <= Z.of_nat i).
  { unfold q. rewrite Z.mul_comm. apply Z.mul_div_le. lia. }
  assert (Hhi : Z.of_nat i < q * per_page + per_page).
  { unfold q. pose proof (Z.mod_pos_bound (Z.of_nat i) per_page Hpp).
    pose proof (Z.div_mod (Z.of_nat i) per_page). lia. }
  exists (q + 1). eexists. unfold Paginator_page.
  rewrite decide_False by lia.
  rewrite decide_False.
  2:{ unfold Paginator_num_pages.
      replace (Z.max 1 (Z.of_nat (length l)) + per_page - 1)
        with (Z.of_nat (length l) - 1 + 1 * per_page) by lia.
      rewrite Z.div_add by lia.
      assert (q <= (Z.of_nat (length l) - 1) / per_page)
        by (apply Z.div_le_mono; lia).
      lia. }
  split; [reflexivity|].
  apply list_elem_of_lookup_2 with (i := (i - Z.to_nat (q * per_page))%nat).
  replace (q + 1 - 1) with q by lia.
  rewrite lookup_take_lt by (case_decide; lia).
  rewrite lookup_drop. rewrite <- Hi. f_equal. lia.
Qed.

Lemma paginate_queryset_listed (rows : list Row) (x : instance Post.t) :
  (exists pa pg n, paginate_queryset 10 rows pa = Return pg
                   /\ mkRow x.1 x.2 n ∈ pg)
  <-> listed rows x.
Proof.
  split.
  - intros (pa & pg & n & Hpg & Hin). exists n.
    apply paginate_queryset_Return in Hpg as [Hsub _]; [|lia].
    by eapply elem_of_sublist.
  - intros [n Hin].
    destruct (Paginator_page_cover 10 rows _ ltac:(lia) Hin)
      as (k & pg & Hpg & Hin').
    by exists (page_int k), pg, n.
Qed.

(** ** Visibility *)

Lemma category__is_published_true db p :
  category__is_published db p = true <->
  exists c cat, Post.category p = Some c
                /\ categories db !! c = Some cat
                /\ Category.is_published cat = true.
Proof.
  unfold category__is_published. split.
  - destruct (Post.category p) as [c|]; [|done].
    destruct (categories db !! c) as [cat|] eqn:E; [|done]. eauto.
  - intros (c & cat & -> & -> & ->). done.
Qed.

Lemma PostListView_get_queryset_listed db now (x : instance Post.t) :
  listed (PostListView.get_queryset db now) x <->
  posts db !! x.1 = Some x.2 /\ publicly_visible db now x.2.
Proof.
  unfold PostListView.get_queryset, publicly_visible.
  rewrite listed_annotate, list_elem_of_filter, ListView_get_queryset_elem,
    category__is_published_true.
  tauto.
Qed.

Lemma respond_page_obj (tpl : string) (mk : list Row -> Context)
    (m : Outcome (list Row)) tpl' ctx :
  respond (pg ← m; Return (TemplateResponse tpl (mk pg)))
    = TemplateResponse tpl' ctx <->
  exists pg, m = Return pg /\ tpl' = tpl /\ ctx = mk pg.
Proof.
  destruct m as [pg|e]; simpl; split.
  - intros [= <- <-]. eauto.
  - intros (? & [= <-] & -> & ->). done.
  - destruct e; discriminate.
  - intros (? & ? & _). discriminate.
Qed.

Lemma PostListView_appears db now viewer (x : instance Post.t) :
  appears_in PostListView.as_view viewer now db x <->
  listed (PostListView.get_queryset db now) x.
Proof.
  rewrite <- paginate_queryset_listed.
  unfold appears_in, PostListView.as_view, PostListView.get.
  cbn [method page fst]. split.
  - intros (pa & data & tpl & ctx & pg & n & Hresp & Hctx & Hin).
    apply respond_page_obj in Hresp as (pg' & Hpg & -> & ->).
    simpl in Hctx. inversion Hctx; subst. eauto.
  - intros (pa & pg & n & Hpg & Hin).
    exists pa, ∅, PostListView.template_name, (ListContext pg), pg, n.
    split; [|done]. apply respond_page_obj. eauto.
Qed.

Lemma PostCategoriesView_category_Return db c cat :
  unique_slugs db ->
  categories db !! c = Some cat ->
  Category.is_published cat = true ->
  PostCategoriesView.category db (Category.slug cat) = Return (c, cat).
Proof.
  intros Huniq Hc Hpub. unfold PostCategoriesView.category.
  apply get_object_or_404_unique.
  - apply NoDup_map_to_list.
  - by apply elem_of_map_to_list.
  - done.
  - intros [j b] Hin%elem_of_map_to_list [Hslug _]. simpl in *.
    assert (j = c) as -> by (by eapply Huniq).
    congruence.
Qed.

Lemma PostCategoriesView_category_inv db s c cat :
  PostCategoriesView.category db s = Return (c, cat) ->
  categories db !! c = Some cat
  /\ Category.slug cat = s /\ Category.is_published cat = true.
Proof.
  intros [Hin [? ?]]%get_object_or_404_Return.
  by apply elem_of_map_to_list in Hin.
Qed.

Lemma PostCategoriesView_appears db now viewer s (x : instance Post.t) :
  appears_in (PostCategoriesView.as_view s) viewer now db x <->
  exists rows, PostCategoriesView.get_queryset db now s = Return rows
               /\ listed rows x.
Proof.
  unfold appears_in, PostCategoriesView.as_view, PostCategoriesView.get,
    PostCategoriesView.get_queryset.
  cbn [method page fst].
  destruct (PostCategoriesView.category db s) as [cat|e]; simpl.
  - split.
    + intros (pa & data & tpl & ctx & pg & n & Hresp & Hctx & Hin).
      eexists; split; [done|].
      apply (respond_page_obj _ (CategoryContext cat)) in Hresp
        as (pg' & Hpg & -> & ->).
      simpl in Hctx. inversion Hctx; subst.
      apply paginate_queryset_listed. eauto.
    + intros (rows & [= <-] & (pa & pg & n & Hpg & Hin)%paginate_queryset_listed).
      exists pa, ∅, PostCategoriesView.template_name,
        (CategoryContext cat pg), pg, n.
      split; [|done].
      apply (respond_page_obj _ (CategoryContext cat)). eauto.
  - split.
    + intros (pa & data & tpl & ctx & pg & n & Hresp & _).
      destruct e; discriminate.
    + intros (rows & ? & _). discriminate.
Qed.

Lemma PostCategoriesView_listed db now c cat (x : instance Post.t) :
  unique_slugs db ->
  Post.category x.2 = Some c ->
  categories db !! c = Some cat ->
  (exists rows,
      PostCategoriesView.get_queryset db now (Category.slug cat) = Return rows
      /\ listed rows x)
  <-> posts db !! x.1 = Some x.2 /\ publicly_visible db now x.2.
Proof.
  intros Huniq Hcat Hc. unfold PostCategoriesView.get_queryset. split.
  - intros (rows & Hrows & Hx).
    destruct (PostCategoriesView.category db (Category.slug cat))
      as [[c' cat']|e] eqn:E; simpl in Hrows; [|discriminate].
    inversion Hrows; subst; clear Hrows.
    apply listed_annotate, list_elem_of_filter in Hx
      as [(Hc' & Hpub & Hdate) Hin].
    apply ListView_get_queryset_elem in Hin.
    apply PostCategoriesView_category_inv in E as (Hl & _ & Hcp).
    simpl in Hc'. rewrite Hcat in Hc'. inversion Hc'; subst.
    split; [done|]. unfold publicly_visible. eauto 10.
  - intros [Hin (Hpub & (c' & cat' & Hc' & Hl & Hcp) & Hdate)].
    rewrite Hcat in Hc'. inversion Hc'; subst c'.
    rewrite Hc in Hl. inversion Hl; subst cat'.
    rewrite (PostCategoriesView_category_Return db c cat) by done.
    eexists; split; [reflexivity|].
    apply listed_annotate, list_elem_of_filter.
    split; [done|]. by apply ListView_get_queryset_elem.
Qed.

Lemma ProfileDetailView_owner_Return db o u :
  unique_usernames db ->
  users db !! o = Some u ->
  ProfileDetailView.owner db (User.username u) = Return (o, u).
Proof.
  intros Huniq Ho. unfold ProfileDetailView.owner.
  apply get_object_or_404_unique.
  - apply NoDup_map_to_list.
  - by apply elem_of_map_to_list.
  - done.
  - intros [j b] Hin%elem_of_map_to_list Hname. simpl in *.
    assert (j = o) as -> by (by eapply Huniq).
    congruence.
Qed.

Lemma ProfileDetailView_appears db now viewer name (x : instance Post.t) :
  appears_in (ProfileDetailView.as_view name) viewer now db x <->
  exists rows,
    ProfileDetailView.get_queryset (mkRequest GET viewer page_absent ∅)
      now db name = Return rows
    /\ listed rows x.
Proof.
  unfold appears_in, ProfileDetailView.as_view, ProfileDetailView.get,
    ProfileDetailView.get_queryset, user_is.
  cbn [method page user fst].
  destruct (ProfileDetailView.owner db name) as [o|e]; simpl.
  - set (rows := if match viewer with
                     | Some (u, _) => bool_decide (u = o.1)
                     | None => false
                     end then _ else _).
    assert (Hrows : exists l, rows = Return l)
      by (subst rows; destruct viewer as [[? ?]|];
          [case_bool_decide|]; eauto).
    destruct Hrows as [l Hl]. rewrite Hl. simpl. split.
    + intros (pa & data & tpl & ctx & pg & n & Hresp & Hctx & Hin).
      eexists; split; [done|].
      apply (respond_page_obj _ (ProfileContext o)) in Hresp
        as (pg' & Hpg & -> & ->).
      simpl in Hctx. inversion Hctx; subst.
      apply paginate_queryset_listed. eauto.
    + intros (? & [= <-] & (pa & pg & n & Hpg & Hin)%paginate_queryset_listed).
      exists pa, ∅, ProfileDetailView.template_name,
        (ProfileContext o pg), pg, n.
      split; [|done].
      apply (respond_page_obj _ (ProfileContext o)). eauto.
  - split.
    + intros (pa & data & tpl & ctx & pg & n & Hresp & _).
      destruct e; discriminate.
    + intros (rows & ? & _). discriminate.
Qed.

(** What the profile listing holds for its owner: every post of theirs. *)
Lemma profile_listing_for_owner db now o u u' (x : instance Post.t) :
  unique_usernames db ->
  users db !! o = Some u ->
  appears_in (ProfileDetailView.as_view (User.username u)) (Some (o, u'))
    now db x
  <-> posts db !! x.1 = Some x.2 /\ Post.author x.2 = o.
Proof.
  intros Huniq Ho. rewrite ProfileDetailView_appears.
  unfold ProfileDetailView.get_queryset, user_is.
  rewrite (ProfileDetailView_owner_Return db o u) by done. simpl.
  rewrite bool_decide_true by done. split.
  - intros (rows & [= <-] & Hx).
    apply listed_annotate, list_elem_of_filter in Hx as [Ha Hin].
    by apply ListView_get_queryset_elem in Hin.
  - intros [Hin Ha]. eexists; split; [reflexivity|].
    apply listed_annotate, list_elem_of_filter.
    split; [done|]. by apply ListView_get_queryset_elem.
Qed.

(** What the profile listing holds for anybody else: the owner's posts
    that are published and not dated in the future; the category is not
    looked at. *)
Lemma profile_listing_for_others db now o u viewer (x : instance Post.t) :
  unique_usernames db ->
  users db !! o = Some u ->
  (forall w, viewer = Some w -> w.1 <> o) ->
  appears_in (ProfileDetailView.as_view (User.username u)) viewer now db x
  <-> posts db !! x.1 = Some x.2
      /\ Post.author x.2 = o
      /\ Post.is_published x.2 = true
      /\ Post.pub_date x.2 <= now.
Proof.
  intros Huniq Ho Hother. rewrite ProfileDetailView_appears.
  unfold ProfileDetailView.get_queryset, user_is.
  rewrite (ProfileDetailView_owner_Return db o u) by done. simpl.
  assert (match viewer with
          | Some (v, _) => bool_decide (v = o)
          | None => false
          end = false) as ->.
  { destruct viewer as [[v w]|]; [|done].
    apply bool_decide_false. by apply (Hother (v, w)). }
  split.
  - intros (rows & [= <-] & Hx).
    apply listed_annotate, list_elem_of_filter in Hx as [Ha Hin].
    apply ListView_get_queryset_elem in Hin. tauto.
  - intros (Hin & Ha). eexists; split; [reflexivity|].
    apply listed_annotate, list_elem_of_filter.
    split; [done|]. by apply ListView_get_queryset_elem.
Qed.

(** ** The detail page *)

(** For a post whose category row exists the detail view returns the post
    to its author and to anybody when the post is publicly visible, and
    raises [Http404] otherwise. *)
Lemma PostDetailView_get_object_with_category db now req id p c cat :
  posts db !! id = Some p ->
  Post.category p = Some c ->
  categories db !! c = Some cat ->
  (PostDetailView.get_object req now db id = Return (id, p)
   <-> user_is req (Post.author p) = true \/ publicly_visible db now p)
  /\ (PostDetailView.get_object req now db id = Return (id, p)
      \/ PostDetailView.get_object req now db id = Raise Http404).
Proof.
  intros Hp Hc Hcat.
  unfold PostDetailView.get_object, get_by_pk, publicly_visible,
    PostDetailView.category_is_published.
  rewrite Hp. simpl. rewrite Hc, Hcat.
  destruct (user_is req (Post.author p)); [split; [split|]; by auto|].
  destruct (Post.is_published p); simpl.
  - case_decide; simpl.
    + destruct (Category.is_published cat) eqn:E; simpl.
      * split; [|by auto]. split; [|done]. intros _. right. eauto 10.
      * split; [|by auto]. split; [done|].
        intros [?|(_ & (c' & cat' & [= <-] & Hl & Hpub) & _)]; [done|].
        congruence.
    + split; [|by auto]. split; [done|]. intros [?|(_ & _ & ?)]; [done|lia].
  - split; [|by auto]. split; [done|]. intros [?|(? & _)]; done.
Qed.

(** A post that does not exist is not found. *)
Lemma PostDetailView_get_object_missing db now req id :
  posts db !! id = None ->
  PostDetailView.get_object req now db id = Raise Http404.
Proof.
  intros Hp. unfold PostDetailView.get_object, get_by_pk. by rewrite Hp.
Qed.

(** ** Forms *)

Lemma PostForm_fields_eq :
  PostForm.fields = ["title"; "text"; "pub_date"; "location"; "category"].
Proof. reflexivity. Qed.

Section ModelForm_facts.
Context {M : Type}.
Variable clean_field : string -> option Value -> option (option Value).
Variable setattr : string -> option Value -> M -> M.

(** Cleaning reads the submitted data at the form's fields only. *)
Lemma full_clean_ext (fields : list string) (data data' : gmap string Value) :
  (forall name, name ∈ fields -> data !! name = data' !! name) ->
  full_clean clean_field fields data = full_clean clean_field fields data'.
Proof.
  induction fields as [|f fs IH]; intros Hext; [done|].
  simpl. rewrite IH by (intros; apply Hext; by right).
  rewrite (Hext f) by left. done.
Qed.

(** An attribute that no field of the form assigns keeps its value. *)
Lemma construct_instance_preserves {B} (attr : M -> B) (fields : list string)
    (cleaned_data : gmap string (option Value)) (obj : M) :
  (forall name v o, name ∈ fields -> attr (setattr name v o) = attr o) ->
  attr (construct_instance setattr fields cleaned_data obj) = attr obj.
Proof.
  induction fields as [|f fs IH]; intros Hkeep; [done|].
  simpl. destruct (cleaned_data !! f).
  - rewrite Hkeep by left. apply IH. intros; apply Hkeep; by right.
  - apply IH. intros; apply Hkeep; by right.
Qed.
End ModelForm_facts.

Lemma PostForm_setattr_keeps name v (p : Post.t) :
  name ∈ PostForm.fields ->
  Post.is_published (PostForm.setattr name v p) = Post.is_published p
  /\ Post.author (PostForm.setattr name v p) = Post.author p
  /\ Post.created_at (PostForm.setattr name v p) = Post.created_at p.
Proof.
  rewrite PostForm_fields_eq. intros Hin.
  repeat (apply elem_of_cons in Hin as [->|Hin]);
    [..|by apply elem_of_nil in Hin];
    destruct p, v as [[]|]; done.
Qed.

Lemma PostForm_instance_of_keeps cleaned_data (p : Post.t) :
  Post.is_published (PostForm.instance_of cleaned_data p) = Post.is_published p
  /\ Post.author (PostForm.instance_of cleaned_data p) = Post.author p
  /\ Post.created_at (PostForm.instance_of cleaned_data p) = Post.created_at p.
Proof.
  unfold PostForm.instance_of.
  repeat split; apply construct_instance_preserves;
    intros name v o Hin; by apply PostForm_setattr_keeps.
Qed.

Lemma PostForm_is_valid_ext db (data data' : gmap string Value) :
  (forall name, name ∈ PostForm.fields -> data !! name = data' !! name) ->
  PostForm.is_valid db data = PostForm.is_valid db data'.
Proof. apply full_clean_ext. Qed.

Lemma PostForm_excluded_not_fields name :
  name ∈ PostForm.Meta_exclude -> name ∉ PostForm.fields.
Proof.
  unfold PostForm.fields. intros Hex [Hnot _]%list_elem_of_filter. done.
Qed.

(** ** Uniqueness constraints on concrete tables *)

Lemma NoDup_fmap_inj_on {A B} (f : A -> B) (l : list A) x y :
  NoDup (f <$> l) -> x ∈ l -> y ∈ l -> f x = f y -> x = y.
Proof.
  induction l as [|a l IH]; simpl; intros Hnd Hx Hy Hf.
  - by apply elem_of_nil in Hx.
  - apply NoDup_cons in Hnd as [Hna Hnd].
    apply elem_of_cons in Hx as [->|Hx]; apply elem_of_cons in Hy as [->|Hy].
    + done.
    + exfalso. apply Hna. rewrite Hf. by apply list_elem_of_fmap_2.
    + exfalso. apply Hna. rewrite <- Hf. by apply list_elem_of_fmap_2.
    + by apply IH.
Defined.

Lemma unique_slugs_NoDup db :
  NoDup ((fun c : instance Category.t => Category.slug c.2)
           <$> map_to_list (categories db)) ->
  unique_slugs db.
Proof.
  intros Hnd i j a b Hi%elem_of_map_to_list Hj%elem_of_map_to_list Hs.
  assert ((i, a) = (j, b)) as [= -> _]; [|done].
  by eapply (NoDup_fmap_inj_on _ _ (i, a) (j, b) Hnd).
Defined.

Lemma unique_usernames_NoDup db :
  NoDup ((fun u : instance User.t => User.username u.2)
           <$> map_to_list (users db)) ->
  unique_usernames db.
Proof.
  intros Hnd i j a b Hi%elem_of_map_to_list Hj%elem_of_map_to_list Hs.
  assert ((i, a) = (j, b)) as [= -> _]; [|done].
  by eapply (NoDup_fmap_inj_on _ _ (i, a) (j, b) Hnd).
Defined.

Lemma sample_db_unique_slugs : unique_slugs sample_db.
Proof.
  apply unique_slugs_NoDup. apply (bool_decide_unpack _). vm_compute. exact I.
Defined.

Lemma sample_db_unique_usernames : unique_usernames sample_db.
Proof.
  apply unique_usernames_NoDup. apply (bool_decide_unpack _). vm_compute.
  exact I.
Defined.

(** ** The listings *)

(** C2: a post appears in the index listing, and in the listing of its
    category, exactly when it is published, its category is published and
    its pub_date is not after the time of the request. *)
Theorem public_listings_show_exactly_the_visible d db now viewer
    (x : instance Post.t) :
  unique_slugs db ->
  posts db !! x.1 = Some x.2 ->
  (appears_in (urlpatterns d index) viewer now db x
   <-> publicly_visible db now x.2)
  /\ (forall c cat,
        Post.category x.2 = Some c ->
        categories db !! c = Some cat ->
        (appears_in (urlpatterns d (category_posts (Category.slug cat)))
           viewer now db x
         <-> publicly_visible db now x.2)).
Proof.
  intros Huniq Hx. split.
  - cbn [urlpatterns].
    rewrite PostListView_appears, PostListView_get_queryset_listed. tauto.
  - intros c cat Hc Hcat. cbn [urlpatterns].
    rewrite PostCategoriesView_appears,
      (PostCategoriesView_listed db now c cat) by done.
    tauto.
Qed.

Lemma public_listings_show_exactly_the_visible_witness :
  unique_slugs sample_db
  /\ posts sample_db !! 1 = Some post_public
  /\ (appears_in (urlpatterns true index) None sample_now sample_db
        (1, post_public)
      <-> publicly_visible sample_db sample_now post_public)
  /\ (forall c cat,
        Post.category post_public = Some c ->
        categories sample_db !! c = Some cat ->
        (appears_in (urlpatterns true (category_posts (Category.slug cat)))
           None sample_now sample_db (1, post_public)
         <-> publicly_visible sample_db sample_now post_public)).
Proof.
  split; [exact sample_db_unique_slugs|].
  split; [reflexivity|].
  apply (public_listings_show_exactly_the_visible true sample_db sample_now
           None (1, post_public)).
  - exact sample_db_unique_slugs.
  - reflexivity.
Defined.

(** C1: the profile listing served to somebody other than the owner
    leaves the category out of its filter.  Bob sees Alice's post filed
    under the unpublished category on her profile page, although the post
    is not publicly visible, and likewise her post with no category; her
    unpublished post and her post dated in the future stay hidden. *)
Theorem profile_shows_post_of_unpublished_category_to_others :
  appears_in (urlpatterns true (profile "alice")) (Some (2, bob))
    sample_now sample_db (3, post_hidden_category)
  /\ ~ publicly_visible sample_db sample_now post_hidden_category
  /\ Post.author post_hidden_category <> 2
  /\ appears_in (urlpatterns true (profile "alice")) (Some (2, bob))
       sample_now sample_db (4, post_no_category)
  /\ ~ appears_in (urlpatterns true (profile "alice")) (Some (2, bob))
         sample_now sample_db (2, post_unpublished)
  /\ ~ appears_in (urlpatterns true (profile "alice")) (Some (2, bob))
         sample_now sample_db (5, post_future).
Proof.
  assert (Hiff := fun x =>
    profile_listing_for_others sample_db sample_now 1 alice (Some (2, bob)) x
      sample_db_unique_usernames eq_refl).
  cbn [urlpatterns]. change "alice" with (User.username alice).
  repeat split.
  - apply Hiff; [intros w [= <-]; done|]. repeat split; vm_compute; congruence.
  - intros (_ & (c & cat & [= <-] & Hcat & Hpub) & _).
    vm_compute in Hcat. by inversion Hcat; subst.
  - done.
  - apply Hiff; [intros w [= <-]; done|]. repeat split; vm_compute; congruence.
  - intros Happ. apply Hiff in Happ as (_ & _ & Hpub & _);
      [done | intros w [= <-]; done].
  - intros Happ. apply Hiff in Happ as (_ & _ & _ & Hdate);
      [by vm_compute in Hdate | intros w [= <-]; done].
Qed.

(** C8: a page that the index, a category listing or a profile listing
    delivers is in descending order of pub_date and holds at most ten
    posts. *)
Theorem listing_pages_newest_first_at_most_ten d r req now db tpl ctx :
  is_listing r ->
  (urlpatterns d r req now db).1 = TemplateResponse tpl ctx ->
  exists pg,
    page_obj_of ctx = Some pg
    /\ StronglySorted by_pub_date_desc pg
    /\ (length pg <= 10)%nat.
Proof.
  assert (Hpage : forall (P : instance Post.t -> Prop)
                    `{!forall x, Decision (P x)} pa pg,
             paginate_queryset 10
               (annotate db (filter P (ListView_get_queryset db))) pa
               = Return pg ->
             StronglySorted by_pub_date_desc pg /\ (length pg <= 10)%nat).
  { intros P ? pa pg [Hsub Hlen]%paginate_queryset_Return; [|lia].
    split; [|lia].
    eapply StronglySorted_sublist; [done|]. by apply annotate_filter_sorted. }
  destruct r; try done; intros _; cbn [urlpatterns].
  - unfold PostListView.as_view, PostListView.get, PostListView.get_queryset.
    destruct (method req); [|discriminate]. cbn [fst].
    intros (pg & Hpg & -> & ->)%respond_page_obj.
    exists pg. split; [done|]. by eapply Hpage.
  - unfold PostCategoriesView.as_view, PostCategoriesView.get,
      PostCategoriesView.get_queryset.
    destruct (method req); [|discriminate]. cbn [fst].
    destruct (PostCategoriesView.category db category_slug) as [cat|e];
      simpl; [|destruct e; discriminate].
    intros (pg & Hpg & -> & ->)%(respond_page_obj _ (CategoryContext cat)).
    exists pg. split; [done|]. by eapply Hpage.
  - unfold ProfileDetailView.as_view, ProfileDetailView.get,
      ProfileDetailView.get_queryset.
    destruct (method req); [|discriminate]. cbn [fst].
    destruct (ProfileDetailView.owner db username) as [o|e];
      simpl; [|destruct e; discriminate].
    destruct (user_is req o.1); simpl;
      intros (pg & Hpg & -> & ->)%(respond_page_obj _ (ProfileContext o));
      exists pg; (split; [done|]); by eapply Hpage.
Qed.

Lemma listing_pages_newest_first_at_most_ten_witness :
  is_listing (profile "alice")
  /\ exists pg,
       page_obj_of
         (ProfileContext (1, alice)
            [mkRow 5 post_future 0; mkRow 4 post_no_category 0;
             mkRow 3 post_hidden_category 0; mkRow 1 post_public 2;
             mkRow 2 post_unpublished 0]) = Some pg
       /\ StronglySorted by_pub_date_desc pg
       /\ (length pg <= 10)%nat.
Proof.
  split; [exact I|].
  apply (listing_pages_newest_first_at_most_ten true (profile "alice")
           (request_of GET (Some (1, alice)) ∅) sample_now sample_db
           "blog/profile.html").
  - exact I.
  - vm_compute. reflexivity.
Defined.

(** The first page of the index is always served. *)
Lemma index_first_page_served d viewer data now db :
  exists pg,
    (urlpatterns d index (request_of GET viewer data) now db).1
    = TemplateResponse PostListView.template_name (ListContext pg).
Proof.
  cbn [urlpatterns]. unfold PostListView.as_view, PostListView.get.
  cbn [request_of method page fst paginate_queryset].
  unfold Paginator_page. rewrite decide_False by lia.
  rewrite decide_False; [simpl; eauto|].
  unfold Paginator_num_pages, PostListView.paginate_by.
  assert (1 <= (Z.max 1 (Z.of_nat (length (PostListView.get_queryset db now)))
                + 10 - 1) / 10); [|lia].
  apply Z.div_le_lower_bound; lia.
Qed.

(** ** One post *)

(** C3: the detail view reads [post.category.is_published] once the post
    is published and not dated in the future.  For Alice's published post
    with no category, requested by Bob, that attribute access raises and
    the answer is a server error, where a post that is not publicly
    visible should be reported to Bob as not found; the author still gets
    the post. *)
Theorem detail_of_post_without_category_is_server_error :
  posts sample_db !! 4 = Some post_no_category
  /\ ~ publicly_visible sample_db sample_now post_no_category
  /\ user_is (request_of GET (Some (2, bob)) ∅)
       (Post.author post_no_category) = false
  /\ PostDetailView.get_object (request_of GET (Some (2, bob)) ∅)
       sample_now sample_db 4 = Raise AttributeError
  /\ (urlpatterns true (post_detail 4) (request_of GET (Some (2, bob)) ∅)
        sample_now sample_db).1 = ServerError AttributeError
  /\ PostDetailView.get_object (request_of GET (Some (1, alice)) ∅)
       sample_now sample_db 4 = Return (4, post_no_category).
Proof.
  repeat split; try (vm_compute; reflexivity).
  intros (_ & (c & cat & Hc & _) & _). discriminate.
Qed.

(** ** Editing and deleting what belongs to somebody else *)

Lemma user_is_other (req : Request) v pk :
  user req = Some v -> pk <> v.1 -> user_is req pk = false.
Proof.
  intros Hu Hne. unfold user_is. rewrite Hu. destruct v as [u ?].
  apply bool_decide_false. simpl in Hne. congruence.
Qed.

Lemma user_is_self (req : Request) v :
  user req = Some v -> user_is req v.1 = true.
Proof.
  intros Hu. unfold user_is. rewrite Hu. destruct v as [u ?].
  by apply bool_decide_true.
Qed.

Lemma user_is_anonymous (req : Request) pk :
  user req = None -> user_is req pk = false.
Proof. intros Hu. unfold user_is. by rewrite Hu. Qed.

(** C4: a signed-in user who asks to edit or delete a post or a comment
    of another author is redirected to the post detail page named in the
    URL, and the database after the request is the database before it. *)
Theorem non_author_is_redirected_and_nothing_changes d req now db v id :
  user req = Some v ->
  (forall p,
      posts db !! id = Some p -> Post.author p <> v.1 ->
      urlpatterns d (edit_post id) req now db
        = (HttpResponseRedirect (to_route (post_detail id)), db)
      /\ urlpatterns d (delete_post id) req now db
        = (HttpResponseRedirect (to_route (post_detail id)), db))
  /\ (forall comment c,
        comments db !! comment = Some c -> Comment.author c <> v.1 ->
        urlpatterns d (edit_comment id comment) req now db
          = (HttpResponseRedirect (to_route (post_detail id)), db)
        /\ urlpatterns d (delete_comment id comment) req now db
          = (HttpResponseRedirect (to_route (post_detail id)), db)).
Proof.
  intros Hu. split.
  - intros p Hp Hne. cbn [urlpatterns].
    unfold PostEditView.as_view, PostEditView.dispatch, PostEditView.get_object,
      PostDeleteView.as_view, PostDeleteView.dispatch,
      PostDeleteView.get_object, get_by_pk.
    rewrite Hp. cbn [snd]. by rewrite (user_is_other req v).
  - intros comment c Hc Hne. cbn [urlpatterns].
    unfold CommentUpdateView.as_view, CommentUpdateView.dispatch,
      CommentUpdateView.get_object, CommentDeleteView.as_view,
      CommentDeleteView.dispatch, CommentDeleteView.get_object, get_by_pk.
    rewrite Hc. cbn [snd]. by rewrite (user_is_other req v).
Qed.

Lemma non_author_is_redirected_and_nothing_changes_witness :
  user (request_of POST (Some (2, bob)) {[ "text" := VStr "mine now" ]})
    = Some (2, bob)
  /\ urlpatterns true (edit_post 1)
       (request_of POST (Some (2, bob)) {[ "text" := VStr "mine now" ]})
       sample_now sample_db
     = (HttpResponseRedirect (to_route (post_detail 1)), sample_db)
  /\ urlpatterns true (delete_comment 1 2)
       (request_of POST (Some (2, bob)) {[ "text" := VStr "mine now" ]})
       sample_now sample_db
     = (HttpResponseRedirect (to_route (post_detail 1)), sample_db).
Proof.
  split; [reflexivity|].
  destruct (non_author_is_redirected_and_nothing_changes true
              (request_of POST (Some (2, bob)) {[ "text" := VStr "mine now" ]})
              sample_now sample_db (2, bob) 1 eq_refl) as [Hpost Hcomment].
  split.
  - apply (Hpost post_public); [reflexivity | vm_compute; discriminate].
  - apply (Hcomment 2 comment_by_alice);
      [reflexivity | vm_compute; discriminate].
Defined.

(** ** Requests without a session *)

(** The views whose [dispatch] is the one of [LoginRequiredMixin] send the
    anonymous user to the login page and leave the database alone. *)
Lemma anonymous_create_is_sent_to_login d r req now db :
  user req = None ->
  r = create_post \/ r = edit_profile \/ (exists id, r = add_comment id) ->
  urlpatterns d r req now db = (HttpResponseRedirect (to_login r), db).
Proof.
  intros Hu [->|[->|[id ->]]]; cbn [urlpatterns];
    unfold PostCreateView.as_view, ProfileEditView.as_view,
      CommentCreateView.as_view, LoginRequiredMixin_dispatch;
    by rewrite Hu.
Qed.

(** The views that override [dispatch] compare the author with the
    anonymous user before [LoginRequiredMixin] is asked. *)
Lemma anonymous_edit_is_sent_to_post_detail d req now db id :
  user req = None ->
  (is_Some (posts db !! id) ->
     urlpatterns d (edit_post id) req now db
       = (HttpResponseRedirect (to_route (post_detail id)), db)
     /\ urlpatterns d (delete_post id) req now db
       = (HttpResponseRedirect (to_route (post_detail id)), db))
  /\ (forall comment,
        is_Some (comments db !! comment) ->
        urlpatterns d (edit_comment id comment) req now db
          = (HttpResponseRedirect (to_route (post_detail id)), db)
        /\ urlpatterns d (delete_comment id comment) req now db
          = (HttpResponseRedirect (to_route (post_detail id)), db)).
Proof.
  intros Hu. split.
  - intros [p Hp]. cbn [urlpatterns].
    unfold PostEditView.as_view, PostEditView.dispatch, PostEditView.get_object,
      PostDeleteView.as_view, PostDeleteView.dispatch,
      PostDeleteView.get_object, get_by_pk.
    rewrite Hp. cbn [snd]. by rewrite user_is_anonymous.
  - intros comment [c Hc]. cbn [urlpatterns].
    unfold CommentUpdateView.as_view, CommentUpdateView.dispatch,
      CommentUpdateView.get_object, CommentDeleteView.as_view,
      CommentDeleteView.dispatch, CommentDeleteView.get_object, get_by_pk.
    rewrite Hc. cbn [snd]. by rewrite user_is_anonymous.
Qed.

(** C5: a request without a session to the edit or delete view of a post
    or of a comment is not answered with the redirect to the login page:
    for an existing object the answer is the redirect to the post detail
    page, for a missing one it is not-found. *)
Theorem anonymous_edit_and_delete_bypass_login :
  user (request_of GET None ∅) = None
  /\ (urlpatterns true (edit_post 1) (request_of GET None ∅)
        sample_now sample_db).1
     = HttpResponseRedirect (to_route (post_detail 1))
  /\ (urlpatterns true (delete_post 1) (request_of POST None ∅)
        sample_now sample_db).1
     = HttpResponseRedirect (to_route (post_detail 1))
  /\ (urlpatterns true (edit_comment 1 1) (request_of GET None ∅)
        sample_now sample_db).1
     = HttpResponseRedirect (to_route (post_detail 1))
  /\ (urlpatterns true (delete_comment 1 1) (request_of POST None ∅)
        sample_now sample_db).1
     = HttpResponseRedirect (to_route (post_detail 1))
  /\ (urlpatterns true (edit_post 99) (request_of GET None ∅)
        sample_now sample_db).1
     = HttpResponseNotFound
  /\ (urlpatterns true create_post (request_of GET None ∅)
        sample_now sample_db).1
     = HttpResponseRedirect (to_login create_post).
Proof. repeat split; vm_compute; reflexivity. Qed.

(** ** Comments *)

Lemma CommentForm_is_valid_Some (data : gmap string Value) :
  is_Some (CommentForm.is_valid data) <->
  exists s, data !! "text" = Some (VStr s)
            /\ strip s <> "" /\ has_null (strip s) = false.
Proof.
  unfold CommentForm.is_valid, CommentForm.Meta_fields,
    CommentForm.clean_field, clean_CharField.
  cbn [full_clean foldr]. rewrite decide_True by done. simpl.
  destruct (data !! "text") as [[s| |]|]; simpl;
    try (split; [intros [? ?]; discriminate | intros (? & ? & _); discriminate]).
  case_decide; simpl.
  - split; [intros [? ?]; discriminate | intros (s' & [= <-] & ? & _); done].
  - destruct (has_null (strip s)) eqn:E; simpl.
    + split; [intros [? ?]; discriminate|].
      intros (s' & [= <-] & _ & ?). congruence.
    + split; eauto.
Qed.

Lemma CommentCreateView_posting_hidden db now id p :
  posts db !! id = Some p ->
  ~ publicly_visible db now p ->
  CommentCreateView.posting now db id = Raise Http404.
Proof.
  intros Hp Hhidden. unfold CommentCreateView.posting.
  apply get_object_or_404_none.
  intros [k q] Hin%elem_of_map_to_list (Hk & Hdate & Hpub & Hcat).
  simpl in *. subst k. assert (q = p) as -> by congruence.
  apply Hhidden. unfold publicly_visible.
  by rewrite <- category__is_published_true.
Qed.

Lemma CommentCreateView_posting_visible db now id p :
  posts db !! id = Some p ->
  publicly_visible db now p ->
  CommentCreateView.posting now db id = Return (id, p).
Proof.
  intros Hp (Hpub & Hcat & Hdate). unfold CommentCreateView.posting.
  apply get_object_or_404_unique.
  - apply NoDup_map_to_list.
  - by apply elem_of_map_to_list.
  - simpl. by rewrite category__is_published_true.
  - intros [k q] Hin%elem_of_map_to_list (Hk & _). simpl in *. congruence.
Qed.

(** C6, as the code has it: on a post that is not publicly visible, a
    comment submission whose form validates is answered with not-found for
    every signed-in user, the author of the post included; a submission
    whose form does not validate gets the form back with its errors.  No
    comment is stored either way. *)
Theorem valid_comment_on_hidden_post_is_not_found d db now id p v
    (req : Request) :
  posts db !! id = Some p ->
  ~ publicly_visible db now p ->
  user req = Some v ->
  method req = POST ->
  (is_Some (CommentForm.is_valid (POST_data req)) ->
     urlpatterns d (add_comment id) req now db = (HttpResponseNotFound, db))
  /\ (CommentForm.is_valid (POST_data req) = None ->
        urlpatterns d (add_comment id) req now db
        = (TemplateResponse CommentCreateView.template_name (FormContext true),
           db)).
Proof.
  intros Hp Hhidden Hu Hm. cbn [urlpatterns].
  unfold CommentCreateView.as_view, LoginRequiredMixin_dispatch,
    CommentCreateView.post, CommentCreateView.form_valid.
  rewrite Hu, Hm. split.
  - intros [cleaned ->].
    by rewrite (CommentCreateView_posting_hidden db now id p).
  - intros ->. done.
Qed.

Lemma valid_comment_on_hidden_post_is_not_found_witness :
  posts sample_db !! 2 = Some post_unpublished
  /\ ~ publicly_visible sample_db sample_now post_unpublished
  /\ urlpatterns true (add_comment 2)
       (request_of POST (Some (1, alice)) {[ "text" := VStr "first" ]})
       sample_now sample_db
     = (HttpResponseNotFound, sample_db).
Proof.
  assert (Hhidden : ~ publicly_visible sample_db sample_now post_unpublished)
    by (intros (Hpub & _); discriminate).
  split; [reflexivity|]. split; [exact Hhidden|].
  apply (valid_comment_on_hidden_post_is_not_found true sample_db sample_now 2
           post_unpublished (1, alice)
           (request_of POST (Some (1, alice)) {[ "text" := VStr "first" ]})
           eq_refl Hhidden eq_refl eq_refl).
  vm_compute. eauto.
Defined.

(** C6 as it is worded fails: Alice submits an empty comment to her own
    unpublished post and gets the comment form back with its errors, not
    the not-found response. *)
Lemma empty_comment_on_hidden_post_is_not_404 :
  ~ every_comment_on_hidden_post_is_not_found.
Proof.
  intros Hall.
  specialize (Hall true sample_db sample_now 2 post_unpublished (1, alice)
                (request_of POST (Some (1, alice)) ∅)).
  assert (Hresp :
    (urlpatterns true (add_comment 2) (request_of POST (Some (1, alice)) ∅)
       sample_now sample_db).1
    = TemplateResponse "blog/comment.html" (FormContext true))
    by (vm_compute; reflexivity).
  rewrite Hall in Hresp.
  - discriminate.
  - reflexivity.
  - intros (Hpub & _). discriminate.
  - reflexivity.
  - reflexivity.
Qed.

(** C9: the edit and delete views of a comment look the comment up by its
    own key; the post id of the URL takes no part in the lookup, nothing
    relates it to the post of the comment, and the redirect after the
    author's edit or delete goes to the detail page of the post id of
    the URL. *)
Theorem comment_views_ignore_the_post_of_the_comment d db now (req : Request)
    v id comment c :
  user req = Some v ->
  comments db !! comment = Some c ->
  Comment.author c = v.1 ->
  method req = POST ->
  CommentUpdateView.get_object db comment = Return (comment, c)
  /\ CommentDeleteView.get_object db comment = Return (comment, c)
  /\ (forall cleaned_data,
        CommentForm.is_valid (POST_data req) = Some cleaned_data ->
        urlpatterns d (edit_comment id comment) req now db
        = (HttpResponseRedirect (to_route (post_detail id)),
           set_comments db
             (<[comment := CommentForm.instance_of cleaned_data c]>
                (comments db))))
  /\ urlpatterns d (delete_comment id comment) req now db
     = (HttpResponseRedirect (to_route (post_detail id)),
        set_comments db (delete comment (comments db))).
Proof.
  intros Hu Hc Ha Hm. cbn [urlpatterns].
  unfold CommentUpdateView.as_view, CommentUpdateView.dispatch,
    CommentUpdateView.post, CommentUpdateView.get_object,
    CommentDeleteView.as_view, CommentDeleteView.dispatch,
    CommentDeleteView.post, CommentDeleteView.get_object,
    LoginRequiredMixin_dispatch, get_by_pk.
  rewrite Hc, Hu, Hm. cbn [fst snd]. rewrite Ha, (user_is_self req v Hu).
  repeat split. intros cleaned_data ->. done.
Qed.

Lemma comment_views_ignore_the_post_of_the_comment_witness :
  Comment.post comment_by_bob <> 5
  /\ urlpatterns true (delete_comment 5 1) (request_of POST (Some (2, bob)) ∅)
       sample_now sample_db
     = (HttpResponseRedirect (to_route (post_detail 5)),
        set_comments sample_db (delete 1 (comments sample_db)))
  /\ urlpatterns true (edit_comment 5 1)
       (request_of POST (Some (2, bob)) {[ "text" := VStr "Very nice" ]})
       sample_now sample_db
     = (HttpResponseRedirect (to_route (post_detail 5)),
        set_comments sample_db
          (<[1 := Comment.mk "Very nice" 1 2 150]> (comments sample_db))).
Proof.
  split; [vm_compute; discriminate|]. split.
  - apply (comment_views_ignore_the_post_of_the_comment true sample_db
             sample_now (request_of POST (Some (2, bob)) ∅) (2, bob) 5 1
             comment_by_bob eq_refl eq_refl eq_refl eq_refl).
  - destruct (comment_views_ignore_the_post_of_the_comment true sample_db
                sample_now
                (request_of POST (Some (2, bob))
                   {[ "text" := VStr "Very nice" ]})
                (2, bob) 5 1 comment_by_bob eq_refl eq_refl eq_refl eq_refl)
      as (_ & _ & Hedit & _).
    etrans.
    + apply (Hedit {[ "text" := Some (VStr "Very nice") ]}).
      vm_compute. reflexivity.
    + vm_compute. reflexivity.
Defined.

(** ** Creating and editing posts *)

Lemma PostForm_setattr_author k (p : Post.t) :
  Post.author (PostForm.setattr "author" (Some (VInt k)) p) = k
  /\ Post.is_published (PostForm.setattr "author" (Some (VInt k)) p)
     = Post.is_published p
  /\ Post.created_at (PostForm.setattr "author" (Some (VInt k)) p)
     = Post.created_at p.
Proof. by destruct p. Qed.

Lemma PostForm_setattr_created_at t (p : Post.t) :
  Post.created_at (PostForm.setattr "created_at" (Some (VInt t)) p) = t
  /\ Post.is_published (PostForm.setattr "created_at" (Some (VInt t)) p)
     = Post.is_published p
  /\ Post.author (PostForm.setattr "created_at" (Some (VInt t)) p)
     = Post.author p.
Proof. by destruct p. Qed.

Lemma PostForm_is_valid_outside_exclude db (data data' : gmap string Value) :
  (forall name, name ∉ PostForm.Meta_exclude -> data' !! name = data !! name) ->
  PostForm.is_valid db data' = PostForm.is_valid db data.
Proof.
  intros Hsame. apply PostForm_is_valid_ext. intros name Hin. apply Hsame.
  unfold PostForm.fields in Hin. by apply list_elem_of_filter in Hin as [? _].
Qed.

(** What a valid submission by a signed-in user creates. *)
Lemma PostCreateView_creates d db now (req : Request) v cleaned_data :
  user req = Some v ->
  method req = POST ->
  PostForm.is_valid db (POST_data req) = Some cleaned_data ->
  exists p,
    urlpatterns d create_post req now db
    = (HttpResponseRedirect (to_route (profile (User.username v.2))),
       set_posts db (<[next_pk (posts db) := p]> (posts db)))
    /\ Post.is_published p = d
    /\ Post.author p = v.1
    /\ Post.created_at p = now.
Proof.
  intros Hu Hm Hvalid. cbn [urlpatterns].
  unfold PostCreateView.as_view, LoginRequiredMixin_dispatch,
    PostCreateView.post, PostCreateView.form_valid.
  rewrite Hu, Hm, Hvalid. eexists. split; [reflexivity|].
  set (obj := PostForm.instance_of cleaned_data (PostCreateView.blank d)).
  set (obj' := PostForm.setattr "author" (Some (VInt v.1)) obj).
  destruct (PostForm_setattr_created_at now obj') as (Hc & Hp & Ha).
  destruct (PostForm_setattr_author v.1 obj) as (Ha' & Hp' & _).
  destruct (PostForm_instance_of_keeps cleaned_data (PostCreateView.blank d))
    as (Hp'' & _).
  fold obj in Hp''. fold obj' in Ha', Hp'.
  rewrite Hc, Hp, Ha, Ha', Hp', Hp''. done.
Qed.

(** C7: a valid submission to the create view by a signed-in user stores
    a new post whose author is that user, whatever value the submitted
    data carries under [author], and is answered with the redirect to the
    profile page of that user. *)
Theorem created_post_is_authored_by_the_session_user d db now (req : Request)
    v cleaned_data :
  user req = Some v ->
  method req = POST ->
  PostForm.is_valid db (POST_data req) = Some cleaned_data ->
  exists p,
    urlpatterns d create_post req now db
    = (HttpResponseRedirect (to_route (profile (User.username v.2))),
       set_posts db (<[next_pk (posts db) := p]> (posts db)))
    /\ posts db !! next_pk (posts db) = None
    /\ Post.author p = v.1
    /\ forall a,
         urlpatterns d create_post
           (mkRequest POST (Some v) (page req)
              (<["author" := a]> (POST_data req))) now db
         = urlpatterns d create_post req now db.
Proof.
  intros Hu Hm Hvalid.
  destruct (PostCreateView_creates d db now req v cleaned_data Hu Hm Hvalid)
    as (p & Hresp & _ & Ha & _).
  exists p. repeat split; [done | apply next_pk_fresh | done |].
  intros a. cbn [urlpatterns].
  unfold PostCreateView.as_view, LoginRequiredMixin_dispatch,
    PostCreateView.post.
  rewrite Hu, Hm. cbn [user method POST_data].
  rewrite (PostForm_is_valid_outside_exclude db (POST_data req)); [done|].
  intros name Hname. apply lookup_insert_ne. intros <-. apply Hname.
  unfold PostForm.Meta_exclude. set_solver.
Qed.

Lemma created_post_is_authored_by_the_session_user_witness :
  exists p,
    urlpatterns true create_post
      (request_of POST (Some (2, bob))
         {[ "title" := VStr "Hello"; "text" := VStr "World";
            "pub_date" := VInt 150; "category" := VInt 1;
            "author" := VInt 1 ]})
      sample_now sample_db
    = (HttpResponseRedirect (to_route (profile "bob")),
       set_posts sample_db (<[6 := p]> (posts sample_db)))
    /\ Post.author p = 2.
Proof.
  destruct (created_post_is_authored_by_the_session_user true sample_db
              sample_now
              (request_of POST (Some (2, bob))
                 {[ "title" := VStr "Hello"; "text" := VStr "World";
                    "pub_date" := VInt 150; "category" := VInt 1;
                    "author" := VInt 1 ]})
              (2, bob)
              {[ "title" := Some (VStr "Hello"); "text" := Some (VStr "World");
                 "pub_date" := Some (VInt 150); "location" := None;
                 "category" := Some (VInt 1) ]}
              eq_refl eq_refl)
    as (p & Hresp & _ & Ha & _).
  - vm_compute. reflexivity.
  - exists p. split; [exact Hresp | exact Ha].
Defined.

(** C10: [is_published], [author] and [created_at] are out of reach of
    the post form.  Whatever an edit request carries, the stored post
    keeps the three values it had; the create and edit views answer the
    same when the submitted data differ under the excluded names only;
    and a created post gets the model's default for [is_published], the
    session user as [author] and the time of the request as
    [created_at]. *)
Theorem post_form_leaves_excluded_fields_alone d db now (req : Request) :
  (forall id p,
      posts db !! id = Some p ->
      exists p',
        posts (urlpatterns d (edit_post id) req now db).2 !! id = Some p'
        /\ Post.is_published p' = Post.is_published p
        /\ Post.author p' = Post.author p
        /\ Post.created_at p' = Post.created_at p)
  /\ (forall data',
        (forall name,
            name ∉ PostForm.Meta_exclude ->
            data' !! name = POST_data req !! name) ->
        urlpatterns d create_post
          (mkRequest (method req) (user req) (page req) data') now db
        = urlpatterns d create_post req now db
        /\ forall id,
             urlpatterns d (edit_post id)
               (mkRequest (method req) (user req) (page req) data') now db
             = urlpatterns d (edit_post id) req now db)
  /\ (forall v cleaned_data,
        user req = Some v ->
        method req = POST ->
        PostForm.is_valid db (POST_data req) = Some cleaned_data ->
        exists p,
          (urlpatterns d create_post req now db).2
          = set_posts db (<[next_pk (posts db) := p]> (posts db))
          /\ Post.is_published p = d
          /\ Post.author p = v.1
          /\ Post.created_at p = now).
Proof.
  repeat split.
  - intros id p Hp. cbn [urlpatterns].
    unfold PostEditView.as_view, PostEditView.dispatch, PostEditView.post,
      PostEditView.get, PostEditView.get_object, LoginRequiredMixin_dispatch,
      get_by_pk.
    rewrite Hp. cbn [fst snd].
    destruct (negb (user_is req (Post.author p))); [by eauto|].
    destruct (user req); [|by eauto].
    destruct (method req); [by eauto|].
    destruct (PostForm.is_valid db (POST_data req)) as [cleaned_data|];
      [|by eauto].
    cbn [snd set_posts posts]. rewrite lookup_insert_eq.
    eexists; split; [reflexivity|]. apply PostForm_instance_of_keeps.
  - cbn [urlpatterns].
    unfold PostCreateView.as_view, LoginRequiredMixin_dispatch,
      PostCreateView.post.
    cbn [user method POST_data].
    by rewrite (PostForm_is_valid_outside_exclude db (POST_data req) data').
  - intros id. cbn [urlpatterns].
    unfold PostEditView.as_view, PostEditView.dispatch, PostEditView.post,
      LoginRequiredMixin_dispatch, user_is.
    cbn [user method POST_data].
    by rewrite (PostForm_is_valid_outside_exclude db (POST_data req) data').
  - intros v cleaned_data Hu Hm Hvalid.
    destruct (PostCreateView_creates d db now req v cleaned_data Hu Hm Hvalid)
      as (p & -> & ?). eauto.
Qed.

Lemma post_form_leaves_excluded_fields_alone_witness :
  exists p',
    posts (urlpatterns true (edit_post 2)
             (request_of POST (Some (1, alice))
                {[ "title" := VStr "Notes"; "text" := VStr "Now";
                   "pub_date" := VInt 100; "is_published" := VBool true;
                   "author" := VInt 2; "created_at" := VInt 0 ]})
             sample_now sample_db).2 !! 2 = Some p'
    /\ Post.is_published p' = false
    /\ Post.author p' = 1
    /\ Post.created_at p' = 91.
Proof.
  destruct (post_form_leaves_excluded_fields_alone true sample_db sample_now
              (request_of POST (Some (1, alice))
                 {[ "title" := VStr "Notes"; "text" := VStr "Now";
                    "pub_date" := VInt 100; "is_published" := VBool true;
                    "author" := VInt 2; "created_at" := VInt 0 ]}))
    as (Hedit & _).
  exact (Hedit 2 post_unpublished eq_refl).
Defined.

(** * Further properties of the views *)

Ltac unfold_views :=
  cbn [urlpatterns];
  unfold PostListView.as_view, PostCategoriesView.as_view,
    ProfileDetailView.as_view, PostDetailView.as_view,
    PostCreateView.as_view, PostCreateView.post,
    PostEditView.as_view, PostEditView.dispatch, PostEditView.post,
    PostEditView.get, PostEditView.get_object,
    PostDeleteView.as_view, PostDeleteView.dispatch, PostDeleteView.post,
    PostDeleteView.get, PostDeleteView.get_object,
    ProfileEditView.as_view, ProfileEditView.post,
    CommentCreateView.as_view, CommentCreateView.post,
    CommentUpdateView.as_view, CommentUpdateView.dispatch,
    CommentUpdateView.post, CommentUpdateView.get,
    CommentUpdateView.get_object,
    CommentDeleteView.as_view, CommentDeleteView.dispatch,
    CommentDeleteView.post, CommentDeleteView.get,
    CommentDeleteView.get_object,
    LoginRequiredMixin_dispatch, get_by_pk.

(** ** Requests that change nothing *)

(** A GET request leaves the database as it was, on every route. *)
Theorem get_request_leaves_database_unchanged d r (req : Request) now db :
  method req = GET ->
  (urlpatterns d r req now db).2 = db.
Proof.
  intros Hm. destruct r; unfold_views; rewrite ?Hm; try done.
  - by destruct (user req).
  - destruct (posts db !! id); [|done]. cbn [snd].
    destruct (negb _); [done|]. by destruct (user req).
  - destruct (posts db !! id); [|done]. cbn [snd].
    destruct (negb _); [done|]. by destruct (user req).
  - by destruct (user req).
  - by destruct (user req).
  - destruct (comments db !! comment); [|done]. cbn [snd].
    destruct (negb _); [done|]. by destruct (user req).
  - destruct (comments db !! comment); [|done]. cbn [snd].
    destruct (negb _); [done|]. by destruct (user req).
Qed.

Lemma get_request_leaves_database_unchanged_witness :
  (urlpatterns true (delete_post 1) (request_of GET (Some (1, alice)) ∅)
     sample_now sample_db).2 = sample_db.
Proof.
  apply (get_request_leaves_database_unchanged true (delete_post 1)
           (request_of GET (Some (1, alice)) ∅) sample_now sample_db).
  reflexivity.
Defined.

(** The listings and the detail page define [get] only: a POST to them
    is answered with method-not-allowed, and no method changes the
    database. *)
Theorem listing_and_detail_routes_are_read_only d r (req : Request) now db :
  is_listing r \/ (exists id, r = post_detail id) ->
  (urlpatterns d r req now db).2 = db
  /\ (method req = POST ->
      (urlpatterns d r req now db).1 = HttpResponseNotAllowed).
Proof.
  intros [Hl|[id ->]]; [destruct r; try done|]; unfold_views;
    destruct (method req); done.
Qed.

Lemma listing_and_detail_routes_are_read_only_witness :
  urlpatterns true (post_detail 1)
    (request_of POST (Some (1, alice)) {[ "text" := VStr "x" ]})
    sample_now sample_db
  = (HttpResponseNotAllowed, sample_db).
Proof.
  destruct (listing_and_detail_routes_are_read_only true (post_detail 1)
              (request_of POST (Some (1, alice)) {[ "text" := VStr "x" ]})
              sample_now sample_db) as [Hdb Hresp].
  - right. by exists 1.
  - specialize (Hresp eq_refl).
    destruct (urlpatterns true (post_detail 1) _ sample_now sample_db).
    simpl in *. by rewrite Hdb, Hresp.
Defined.

(** A request without a session changes nothing, whatever the route, the
    method and the submitted data. *)
Theorem anonymous_request_changes_nothing d r (req : Request) now db :
  user req = None ->
  (urlpatterns d r req now db).2 = db.
Proof.
  intros Hu. destruct r; unfold_views; rewrite ?Hu; try done;
    try (by destruct (method req)).
  - destruct (posts db !! id); [|done]. cbn [snd].
    by rewrite user_is_anonymous.
  - destruct (posts db !! id); [|done]. cbn [snd].
    by rewrite user_is_anonymous.
  - destruct (comments db !! comment); [|done]. cbn [snd].
    by rewrite user_is_anonymous.
  - destruct (comments db !! comment); [|done]. cbn [snd].
    by rewrite user_is_anonymous.
Qed.

Lemma anonymous_request_changes_nothing_witness :
  (urlpatterns true (delete_comment 1 1) (request_of POST None ∅)
     sample_now sample_db).2 = sample_db.
Proof.
  apply (anonymous_request_changes_nothing true (delete_comment 1 1)
           (request_of POST None ∅) sample_now sample_db).
  reflexivity.
Defined.

(** The create-post, add-comment and edit-profile views answer a request
    without a session with the redirect to the login page, which carries
    the requested route as the page to come back to. *)
Theorem login_required_views_redirect_to_login d r (req : Request) now db :
  user req = None ->
  r = create_post \/ r = edit_profile \/ (exists id, r = add_comment id) ->
  urlpatterns d r req now db = (HttpResponseRedirect (to_login r), db).
Proof.
  intros Hu [->|[->|[id ->]]]; unfold_views; by rewrite Hu.
Qed.

Lemma login_required_views_redirect_to_login_witness :
  urlpatterns true (add_comment 1)
    (request_of POST None {[ "text" := VStr "hello" ]}) sample_now sample_db
  = (HttpResponseRedirect (to_login (add_comment 1)), sample_db).
Proof.
  apply (login_required_views_redirect_to_login true (add_comment 1)
           (request_of POST None {[ "text" := VStr "hello" ]})
           sample_now sample_db eq_refl).
  right. right. by exists 1.
Defined.

(** ** Objects that do not exist *)

(** A post id that the database can hold and that is not in the table is
    answered with not-found by the detail, edit and delete views, for
    every user and method, and a comment id of that kind by the comment
    edit and delete views; nothing is changed. *)
Theorem missing_object_is_not_found d (req : Request) now db id :
  0 <= id <= max_key ->
  (posts db !! id = None ->
     (method req = GET ->
        urlpatterns d (post_detail id) req now db = (HttpResponseNotFound, db))
     /\ urlpatterns d (edit_post id) req now db = (HttpResponseNotFound, db)
     /\ urlpatterns d (delete_post id) req now db = (HttpResponseNotFound, db))
  /\ (forall comment,
        0 <= comment <= max_key ->
        comments db !! comment = None ->
        urlpatterns d (edit_comment id comment) req now db
          = (HttpResponseNotFound, db)
        /\ urlpatterns d (delete_comment id comment) req now db
          = (HttpResponseNotFound, db)).
Proof.
  intros _. split.
  - intros Hp. repeat split; [intros Hm|..]; unfold_views;
      unfold PostDetailView.get; rewrite ?Hm, ?Hp; try done.
    by rewrite PostDetailView_get_object_missing.
  - intros comment _ Hc. unfold_views. by rewrite Hc.
Qed.

Lemma missing_object_is_not_found_witness :
  urlpatterns true (delete_post 99) (request_of POST (Some (1, alice)) ∅)
    sample_now sample_db = (HttpResponseNotFound, sample_db)
  /\ urlpatterns true (edit_comment 1 99) (request_of POST (Some (1, alice)) ∅)
       sample_now sample_db = (HttpResponseNotFound, sample_db).
Proof.
  destruct (missing_object_is_not_found true
              (request_of POST (Some (1, alice)) ∅) sample_now sample_db 99)
    as [Hpost _]; [unfold max_key; lia|].
  destruct (missing_object_is_not_found true
              (request_of POST (Some (1, alice)) ∅) sample_now sample_db 1)
    as [_ Hcomment]; [unfold max_key; lia|].
  split.
  - apply Hpost. reflexivity.
  - apply (Hcomment 99); [unfold max_key; lia | reflexivity].
Defined.

(** ** Listings: what they hold and when they are not found *)

(** On their own profile page the owner finds every post they wrote, in
    whatever state: unpublished, dated in the future, with or without a
    published category. *)
Theorem profile_owner_sees_all_own_posts d db now o u u'
    (x : instance Post.t) :
  unique_usernames db ->
  users db !! o = Some u ->
  (appears_in (urlpatterns d (profile (User.username u))) (Some (o, u'))
     now db x
   <-> posts db !! x.1 = Some x.2 /\ Post.author x.2 = o).
Proof.
  intros Huniq Ho. cbn [urlpatterns]. by apply profile_listing_for_owner.
Qed.

Lemma profile_owner_sees_all_own_posts_witness :
  appears_in (urlpatterns true (profile "alice")) (Some (1, alice))
    sample_now sample_db (2, post_unpublished)
  /\ appears_in (urlpatterns true (profile "alice")) (Some (1, alice))
       sample_now sample_db (5, post_future).
Proof.
  split.
  - apply (profile_owner_sees_all_own_posts true sample_db sample_now 1 alice
             alice (2, post_unpublished) sample_db_unique_usernames eq_refl).
    split; reflexivity.
  - apply (profile_owner_sees_all_own_posts true sample_db sample_now 1 alice
             alice (5, post_future) sample_db_unique_usernames eq_refl).
    split; reflexivity.
Defined.

(** Anybody else, signed in or not, finds on a profile page the owner's
    posts that are published and not dated in the future, and no others;
    the filter of this branch does not mention the category. *)
Theorem profile_visitor_sees_published_past_posts d db now o u viewer
    (x : instance Post.t) :
  unique_usernames db ->
  users db !! o = Some u ->
  (forall w, viewer = Some w -> w.1 <> o) ->
  (appears_in (urlpatterns d (profile (User.username u))) viewer now db x
   <-> posts db !! x.1 = Some x.2
       /\ Post.author x.2 = o
       /\ Post.is_published x.2 = true
       /\ Post.pub_date x.2 <= now).
Proof.
  intros Huniq Ho Hv. cbn [urlpatterns]. by apply profile_listing_for_others.
Qed.

Lemma profile_visitor_sees_published_past_posts_witness :
  appears_in (urlpatterns true (profile "alice")) None sample_now sample_db
    (1, post_public)
  /\ ~ appears_in (urlpatterns true (profile "alice")) None sample_now
         sample_db (5, post_future).
Proof.
  assert (Hanon : forall w : instance User.t, None = Some w -> w.1 <> 1)
    by (intros w Hw; discriminate Hw).
  split.
  - apply (profile_visitor_sees_published_past_posts true sample_db sample_now
             1 alice None (1, post_public) sample_db_unique_usernames eq_refl
             Hanon).
    repeat split; vm_compute; discriminate.
  - intros Happ.
    apply (profile_visitor_sees_published_past_posts true sample_db sample_now
             1 alice None (5, post_future) sample_db_unique_usernames eq_refl
             Hanon) in Happ.
    destruct Happ as (_ & _ & _ & Hdate). vm_compute in Hdate. by apply Hdate.
Defined.

(** A slug that no published category carries gives not-found: the
    category is absent, or it is there and unpublished. *)
Theorem category_listing_without_published_category_is_not_found d db now
    (req : Request) category_slug :
  (forall c cat,
      categories db !! c = Some cat ->
      Category.slug cat = category_slug ->
      Category.is_published cat = false) ->
  method req = GET ->
  urlpatterns d (category_posts category_slug) req now db
  = (HttpResponseNotFound, db).
Proof.
  intros Hnone Hm. unfold_views.
  unfold PostCategoriesView.get, PostCategoriesView.get_queryset.
  rewrite Hm.
  assert (PostCategoriesView.category db category_slug = Raise Http404) as ->;
    [|done].
  apply get_object_or_404_none.
  intros [c cat] Hin%elem_of_map_to_list [Hs Hp]. simpl in *.
  rewrite (Hnone c cat Hin Hs) in Hp. discriminate.
Qed.

Lemma category_listing_without_published_category_is_not_found_witness :
  urlpatterns true (category_posts "drafts") (request_of GET None ∅)
    sample_now sample_db
  = (HttpResponseNotFound, sample_db).
Proof.
  apply (category_listing_without_published_category_is_not_found true
           sample_db sample_now (request_of GET None ∅) "drafts");
    [|reflexivity].
  intros c cat Hc%elem_of_map_to_list Hs.
  vm_compute in Hc.
  repeat (apply elem_of_cons in Hc as [Hc|Hc];
          [injection Hc as -> ->; try reflexivity; discriminate Hs|]).
  by apply elem_of_nil in Hc.
Defined.

(** A username that no user carries gives not-found on the profile
    route. *)
Theorem profile_of_unknown_username_is_not_found d db now (req : Request)
    username :
  (forall o u, users db !! o = Some u -> User.username u <> username) ->
  method req = GET ->
  urlpatterns d (profile username) req now db = (HttpResponseNotFound, db).
Proof.
  intros Hnone Hm. unfold_views.
  unfold ProfileDetailView.get, ProfileDetailView.get_queryset.
  rewrite Hm.
  assert (ProfileDetailView.owner db username = Raise Http404) as ->; [|done].
  apply get_object_or_404_none.
  intros [o u] Hin%elem_of_map_to_list Hname. simpl in *.
  by apply (Hnone o u Hin).
Qed.

Lemma profile_of_unknown_username_is_not_found_witness :
  urlpatterns true (profile "carol") (request_of GET None ∅)
    sample_now sample_db
  = (HttpResponseNotFound, sample_db).
Proof.
  apply (profile_of_unknown_username_is_not_found true sample_db sample_now
           (request_of GET None ∅) "carol"); [|reflexivity].
  intros o u Hu%elem_of_map_to_list.
  vm_compute in Hu.
  repeat (apply elem_of_cons in Hu as [Hu|Hu];
          [injection Hu as -> ->; discriminate|]).
  by apply elem_of_nil in Hu.
Defined.

(** A page of a category listing comes with the category object in its
    context: a published category with the slug of the URL.  Every post
    on the page is a stored post of that category, published and not
    dated in the future, and its count is the number of comments that
    refer to it. *)
Theorem category_page_holds_posts_of_that_category d db now (req : Request)
    category_slug tpl ctx :
  (urlpatterns d (category_posts category_slug) req now db).1
    = TemplateResponse tpl ctx ->
  exists c cat pg,
    tpl = "blog/category.html"
    /\ ctx = CategoryContext (c, cat) pg
    /\ categories db !! c = Some cat
    /\ Category.slug cat = category_slug
    /\ Category.is_published cat = true
    /\ forall row,
         row ∈ pg ->
         posts db !! row_pk row = Some (row_post row)
         /\ Post.category (row_post row) = Some c
         /\ Post.is_published (row_post row) = true
         /\ Post.pub_date (row_post row) <= now
         /\ comment_count row = Count_comment db (row_pk row).
Proof.
  unfold_views.
  unfold PostCategoriesView.get, PostCategoriesView.get_queryset.
  destruct (method req); [|discriminate]. cbn [fst].
  destruct (PostCategoriesView.category db category_slug) as [[c cat]|e] eqn:E;
    simpl; [|destruct e; discriminate].
  intros (pg & Hpg & -> & ->)%(respond_page_obj _ (CategoryContext (c, cat))).
  apply PostCategoriesView_category_inv in E as (Hc & Hs & Hp).
  exists c, cat, pg. do 5 (split; [done|]). intros row Hrow.
  apply paginate_queryset_Return in Hpg as [Hsub _]; [|reflexivity].
  apply (elem_of_sublist _ _ _ Hrow) in Hsub.
  apply list_elem_of_fmap in Hsub as (x & -> & Hx).
  apply list_elem_of_filter in Hx as [(Hcat & Hpub & Hdate) Hin].
  apply ListView_get_queryset_elem in Hin. done.
Qed.

Lemma category_page_holds_posts_of_that_category_witness :
  exists c cat pg,
    "blog/category.html" = "blog/category.html"
    /\ CategoryContext (1, travel) [mkRow 1 post_public 2]
       = CategoryContext (c, cat) pg
    /\ categories sample_db !! c = Some cat
    /\ Category.slug cat = "travel"
    /\ Category.is_published cat = true
    /\ forall row,
         row ∈ pg ->
         posts sample_db !! row_pk row = Some (row_post row)
         /\ Post.category (row_post row) = Some c
         /\ Post.is_published (row_post row) = true
         /\ Post.pub_date (row_post row) <= sample_now
         /\ comment_count row = Count_comment sample_db (row_pk row).
Proof.
  apply (category_page_holds_posts_of_that_category true sample_db sample_now
           (request_of GET None ∅) "travel").
  vm_compute. reflexivity.
Defined.

(** A page of a profile listing comes with the profile owner in its
    context, the user whose username is in the URL, and every post on the
    page is a stored post of that owner. *)
Theorem profile_page_holds_posts_of_the_owner d db now (req : Request)
    username tpl ctx :
  (urlpatterns d (profile username) req now db).1 = TemplateResponse tpl ctx ->
  exists o u pg,
    tpl = "blog/profile.html"
    /\ ctx = ProfileContext (o, u) pg
    /\ users db !! o = Some u
    /\ User.username u = username
    /\ forall row,
         row ∈ pg ->
         posts db !! row_pk row = Some (row_post row)
         /\ Post.author (row_post row) = o
         /\ comment_count row = Count_comment db (row_pk row).
Proof.
  unfold_views.
  unfold ProfileDetailView.get, ProfileDetailView.get_queryset.
  destruct (method req); [|discriminate]. cbn [fst].
  destruct (ProfileDetailView.owner db username) as [[o u]|e] eqn:E;
    simpl; [|destruct e; discriminate].
  apply get_object_or_404_Return in E as [Ho%elem_of_map_to_list Hname].
  simpl in Hname.
  destruct (user_is req o); simpl;
    intros (pg & Hpg & -> & ->)%(respond_page_obj _ (ProfileContext (o, u)));
    exists o, u, pg; (do 4 (split; [done|])); intros row Hrow;
    (apply paginate_queryset_Return in Hpg as [Hsub _]; [|reflexivity]);
    apply (elem_of_sublist _ _ _ Hrow) in Hsub;
    apply list_elem_of_fmap in Hsub as (x & -> & Hx);
    apply list_elem_of_filter in Hx as [Hf Hin];
    apply ListView_get_queryset_elem in Hin; simpl in *; tauto.
Qed.

Lemma profile_page_holds_posts_of_the_owner_witness :
  exists o u pg,
    "blog/profile.html" = "blog/profile.html"
    /\ ProfileContext (1, alice)
         [mkRow 4 post_no_category 0; mkRow 3 post_hidden_category 0;
          mkRow 1 post_public 2]
       = ProfileContext (o, u) pg
    /\ users sample_db !! o = Some u
    /\ User.username u = "alice"
    /\ forall row,
         row ∈ pg ->
         posts sample_db !! row_pk row = Some (row_post row)
         /\ Post.author (row_post row) = o
         /\ comment_count row = Count_comment sample_db (row_pk row).
Proof.
  apply (profile_page_holds_posts_of_the_owner true sample_db sample_now
           (request_of GET (Some (2, bob)) ∅) "alice").
  vm_compute. reflexivity.
Defined.

(** ** Who can change what *)

(** A stored post is different after a request, or gone, only when the
    request comes from the author of the post and goes to the edit or
    delete route of that post.  No other route and no other user touches
    it. *)
Theorem stored_post_changes_only_for_its_author d r (req : Request) now db
    id p :
  posts db !! id = Some p ->
  posts (urlpatterns d r req now db).2 !! id <> Some p ->
  user_is req (Post.author p) = true
  /\ (r = edit_post id \/ r = delete_post id).
Proof.
  intros Hp. destruct r; unfold_views; try (by intros []);
    try (by destruct (method req); intros []).
  - destruct (user req); [|by intros []].
    destruct (method req); [by intros []|].
    destruct (PostForm.is_valid db (POST_data req)); [|by intros []].
    unfold PostCreateView.form_valid. cbn [snd set_posts posts].
    rewrite lookup_insert_ne; [by intros []|].
    intros Heq. rewrite <- Heq, next_pk_fresh in Hp. discriminate.
  - destruct (posts db !! id0) as [q|] eqn:Hq; [|by intros []]. cbn [fst snd].
    destruct (user_is req (Post.author q)) eqn:Hown; [|by intros []].
    cbn [negb]. destruct (user req); [|by intros []].
    destruct (method req); [by intros []|].
    destruct (PostForm.is_valid db (POST_data req)); [|by intros []].
    cbn [snd set_posts posts].
    destruct (decide (id0 = id)) as [->|Hne].
    + intros _. assert (q = p) as -> by congruence. auto.
    + rewrite lookup_insert_ne by done. by intros [].
  - destruct (posts db !! id0) as [q|] eqn:Hq; [|by intros []]. cbn [fst snd].
    destruct (user_is req (Post.author q)) eqn:Hown; [|by intros []].
    cbn [negb]. destruct (user req); [|by intros []].
    destruct (method req); [by intros []|].
    cbn [snd set_posts set_comments posts].
    destruct (decide (id0 = id)) as [->|Hne].
    + intros _. assert (q = p) as -> by congruence. auto.
    + rewrite lookup_delete_ne by done. by intros [].
  - destruct (user req) as [u|]; [|by intros []].
    destruct (method req); [by intros []|].
    destruct (ProfileForm.is_valid db u.1 (POST_data req)); by intros [].
  - destruct (user req); [|by intros []].
    destruct (method req); [by intros []|].
    destruct (CommentForm.is_valid (POST_data req)); [|by intros []].
    unfold CommentCreateView.form_valid.
    destruct (CommentCreateView.posting now db id0); by intros [].
  - destruct (comments db !! comment) as [c|]; [|by intros []]. cbn [fst snd].
    destruct (negb _); [by intros []|].
    destruct (user req); [|by intros []].
    destruct (method req); [by intros []|].
    destruct (CommentForm.is_valid (POST_data req)); by intros [].
  - destruct (comments db !! comment) as [c|]; [|by intros []]. cbn [fst snd].
    destruct (negb _); [by intros []|].
    destruct (user req); [|by intros []].
    destruct (method req); by intros [].
Qed.

Lemma stored_post_changes_only_for_its_author_witness :
  user_is (request_of POST (Some (1, alice)) ∅) (Post.author post_public) = true
  /\ (delete_post 1 = edit_post 1 \/ delete_post 1 = delete_post 1).
Proof.
  apply (stored_post_changes_only_for_its_author true (delete_post 1)
           (request_of POST (Some (1, alice)) ∅) sample_now sample_db 1
           post_public).
  - reflexivity.
  - vm_compute. discriminate.
Defined.

(** ** Comments: create, edit, delete *)

Lemma CommentForm_is_valid_inv (data : gmap string Value) cleaned_data :
  CommentForm.is_valid data = Some cleaned_data ->
  exists s,
    data !! "text" = Some (VStr s)
    /\ strip s <> ""
    /\ cleaned_data = {[ "text" := Some (VStr (strip s)) ]}.
Proof.
  unfold CommentForm.is_valid, CommentForm.Meta_fields,
    CommentForm.clean_field, clean_CharField.
  cbn [full_clean foldr]. rewrite decide_True by done. simpl.
  destruct (data !! "text") as [[s| |]|]; simpl; try discriminate.
  case_decide; simpl; [discriminate|].
  destruct (has_null (strip s)); simpl; [discriminate|].
  intros [= <-]. eauto.
Qed.

Lemma CommentForm_instance_of_text s (c : Comment.t) :
  CommentForm.instance_of {[ "text" := Some (VStr s) ]} c
  = Comment.mk s (Comment.post c) (Comment.author c) (Comment.created_at c).
Proof. reflexivity. Qed.

Lemma Count_comment_insert db k c pk :
  comments db !! k = None ->
  Count_comment (set_comments db (<[k := c]> (comments db))) pk
  = (if decide (Comment.post c = pk) then S (Count_comment db pk)
     else Count_comment db pk).
Proof.
  intros Hk. unfold Count_comment. cbn [set_comments comments].
  rewrite (Permutation_length
             (filter_Permutation _ _ _ (map_to_list_insert _ k c Hk))).
  rewrite filter_cons. simpl. by case_decide.
Qed.

(** A valid comment by a signed-in user on a publicly visible post is
    stored under a key that was free, with that user as author, that post
    as post and the submitted text without the white space around it; the
    answer is the redirect to the detail page of the post.  Comments
    already stored stay as they are, and so do the posts. *)
Theorem comment_on_visible_post_is_stored d db now id p v (req : Request)
    cleaned_data :
  posts db !! id = Some p ->
  publicly_visible db now p ->
  user req = Some v ->
  method req = POST ->
  CommentForm.is_valid (POST_data req) = Some cleaned_data ->
  exists s k,
    POST_data req !! "text" = Some (VStr s)
    /\ comments db !! k = None
    /\ urlpatterns d (add_comment id) req now db
       = (HttpResponseRedirect (to_route (post_detail id)),
          set_comments db
            (<[k := Comment.mk (strip s) id v.1 now]> (comments db))).
Proof.
  intros Hp Hvis Hu Hm Hvalid.
  destruct (CommentForm_is_valid_inv _ _ Hvalid) as (s & Hs & _ & ->).
  exists s, (next_pk (comments db)).
  split; [done|]. split; [apply next_pk_fresh|].
  unfold_views. unfold CommentCreateView.form_valid.
  rewrite Hu, Hm, Hvalid, (CommentCreateView_posting_visible db now id p)
    by done.
  rewrite CommentForm_instance_of_text. reflexivity.
Qed.

Lemma comment_on_visible_post_is_stored_witness :
  exists s k,
    comments sample_db !! k = None
    /\ urlpatterns true (add_comment 1)
         (request_of POST (Some (2, bob))
            {[ "text" := VStr (utf8 [194; 160; 65; 103; 97; 105; 110; 32]%nat) ]})
         sample_now sample_db
       = (HttpResponseRedirect (to_route (post_detail 1)),
          set_comments sample_db
            (<[k := Comment.mk (strip s) 1 2 sample_now]>
               (comments sample_db)))
    /\ strip s = "Again".
Proof.
  destruct (comment_on_visible_post_is_stored true sample_db sample_now 1
              post_public (2, bob)
              (request_of POST (Some (2, bob))
                 {[ "text"
                    := VStr (utf8 [194; 160; 65; 103; 97; 105; 110; 32]%nat) ]})
              {[ "text" := Some (VStr "Again") ]})
    as (s & k & Hs & Hk & Hresp).
  - reflexivity.
  - split; [reflexivity|]. split; [|vm_compute; discriminate].
    exists 1, travel. repeat split.
  - reflexivity.
  - reflexivity.
  - vm_compute. reflexivity.
  - exists s, k. split; [exact Hk|]. split; [exact Hresp|].
    vm_compute in Hs. injection Hs as <-. vm_compute. reflexivity.
Defined.

(** After such a comment the count that the listings attach to the post
    is one higher, and the count of every other post is what it was. *)
Theorem comment_raises_the_count_of_its_post_by_one d db now id p v
    (req : Request) cleaned_data :
  posts db !! id = Some p ->
  publicly_visible db now p ->
  user req = Some v ->
  method req = POST ->
  CommentForm.is_valid (POST_data req) = Some cleaned_data ->
  Count_comment (urlpatterns d (add_comment id) req now db).2 id
  = S (Count_comment db id)
  /\ forall pk,
       pk <> id ->
       Count_comment (urlpatterns d (add_comment id) req now db).2 pk
       = Count_comment db pk.
Proof.
  intros Hp Hvis Hu Hm Hvalid.
  destruct (CommentForm_is_valid_inv _ _ Hvalid) as (s & Hs & _ & ->).
  unfold_views. unfold CommentCreateView.form_valid.
  rewrite Hu, Hm, Hvalid, (CommentCreateView_posting_visible db now id p)
    by done.
  rewrite CommentForm_instance_of_text. cbn [fst snd]. split.
  - rewrite Count_comment_insert by apply next_pk_fresh.
    by rewrite decide_True.
  - intros pk Hne. rewrite Count_comment_insert by apply next_pk_fresh.
    rewrite decide_False; [done|]. simpl. congruence.
Qed.

Lemma comment_raises_the_count_of_its_post_by_one_witness :
  Count_comment
    (urlpatterns true (add_comment 1)
       (request_of POST (Some (2, bob)) {[ "text" := VStr "More" ]})
       sample_now sample_db).2 1
  = S (Count_comment sample_db 1)
  /\ forall pk,
       pk <> 1 ->
       Count_comment
         (urlpatterns true (add_comment 1)
            (request_of POST (Some (2, bob)) {[ "text" := VStr "More" ]})
            sample_now sample_db).2 pk
       = Count_comment sample_db pk.
Proof.
  apply (comment_raises_the_count_of_its_post_by_one true sample_db sample_now
           1 post_public (2, bob)
           (request_of POST (Some (2, bob)) {[ "text" := VStr "More" ]})
           {[ "text" := Some (VStr "More") ]}).
  - reflexivity.
  - split; [reflexivity|]. split; [|vm_compute; discriminate].
    exists 1, travel. repeat split.
  - reflexivity.
  - reflexivity.
  - vm_compute. reflexivity.
Defined.

(** The author's valid edit of a comment replaces its text by the
    stripped submitted text and nothing else: post, author and creation
    time of the comment stay, every other comment stays, the posts stay.
    The answer is the redirect to the detail page of the URL's post id. *)
Theorem comment_edit_replaces_the_text_only d db now (req : Request) v id
    comment c cleaned_data :
  user req = Some v ->
  comments db !! comment = Some c ->
  Comment.author c = v.1 ->
  method req = POST ->
  CommentForm.is_valid (POST_data req) = Some cleaned_data ->
  exists s,
    POST_data req !! "text" = Some (VStr s)
    /\ urlpatterns d (edit_comment id comment) req now db
       = (HttpResponseRedirect (to_route (post_detail id)),
          set_comments db
            (<[comment := Comment.mk (strip s) (Comment.post c)
                            (Comment.author c) (Comment.created_at c)]>
               (comments db))).
Proof.
  intros Hu Hc Ha Hm Hvalid.
  destruct (CommentForm_is_valid_inv _ _ Hvalid) as (s & Hs & _ & ->).
  exists s. split; [done|].
  unfold_views. rewrite Hc. cbn [fst snd].
  rewrite Ha, (user_is_self req v Hu), Hu, Hm, Hvalid.
  by rewrite CommentForm_instance_of_text, Ha.
Qed.

Lemma comment_edit_replaces_the_text_only_witness :
  exists s,
    POST_data (request_of POST (Some (2, bob)) {[ "text" := VStr "Better" ]})
      !! "text" = Some (VStr s)
    /\ urlpatterns true (edit_comment 1 1)
         (request_of POST (Some (2, bob)) {[ "text" := VStr "Better" ]})
         sample_now sample_db
       = (HttpResponseRedirect (to_route (post_detail 1)),
          set_comments sample_db
            (<[1 := Comment.mk (strip s) (Comment.post comment_by_bob)
                      (Comment.author comment_by_bob)
                      (Comment.created_at comment_by_bob)]>
               (comments sample_db))).
Proof.
  apply (comment_edit_replaces_the_text_only true sample_db sample_now
           (request_of POST (Some (2, bob)) {[ "text" := VStr "Better" ]})
           (2, bob) 1 1 comment_by_bob {[ "text" := Some (VStr "Better") ]});
    reflexivity.
Defined.

(** The author's delete of a comment removes that comment and no other,
    leaves the posts alone, and is answered with the redirect to the
    detail page of the URL's post id; the same request sent again finds
    no comment and is answered with not-found. *)
Theorem comment_delete_removes_that_comment_once d db now (req : Request) v
    id comment c :
  user req = Some v ->
  comments db !! comment = Some c ->
  Comment.author c = v.1 ->
  method req = POST ->
  urlpatterns d (delete_comment id comment) req now db
  = (HttpResponseRedirect (to_route (post_detail id)),
     set_comments db (delete comment (comments db)))
  /\ urlpatterns d (delete_comment id comment) req now
       (set_comments db (delete comment (comments db)))
     = (HttpResponseNotFound,
        set_comments db (delete comment (comments db))).
Proof.
  intros Hu Hc Ha Hm. unfold_views. cbn [set_comments comments].
  rewrite Hc, lookup_delete_eq. cbn [fst snd].
  by rewrite Ha, (user_is_self req v Hu), Hu, Hm.
Qed.

Lemma comment_delete_removes_that_comment_once_witness :
  urlpatterns true (delete_comment 1 2) (request_of POST (Some (1, alice)) ∅)
    sample_now sample_db
  = (HttpResponseRedirect (to_route (post_detail 1)),
     set_comments sample_db (delete 2 (comments sample_db)))
  /\ urlpatterns true (delete_comment 1 2)
       (request_of POST (Some (1, alice)) ∅) sample_now
       (set_comments sample_db (delete 2 (comments sample_db)))
     = (HttpResponseNotFound,
        set_comments sample_db (delete 2 (comments sample_db))).
Proof.
  apply (comment_delete_removes_that_comment_once true sample_db sample_now
           (request_of POST (Some (1, alice)) ∅) (1, alice) 1 2
           comment_by_alice); reflexivity.
Defined.

(** ** Posts: create, edit, delete *)

Lemma clean_ModelChoiceField_inv choices raw v :
  clean_ModelChoiceField choices raw = Some v ->
  exists k : option Z,
    raw = VInt <$> k /\ v = VInt <$> k /\ forall j, k = Some j -> j ∈ choices.
Proof.
  unfold clean_ModelChoiceField. destruct raw as [[s|j|b]|]; try discriminate.
  - case_decide; [|discriminate]. intros [= <-]. exists (Some j).
    repeat split. by intros ? [= <-].
  - intros [= <-]. exists None. repeat split. discriminate.
Qed.

Lemma clean_CharField_inv raw v :
  clean_CharField raw = Some v ->
  exists s, raw = Some (VStr s) /\ strip s <> "" /\ v = Some (VStr (strip s)).
Proof.
  unfold clean_CharField. destruct raw as [[s|j|b]|]; try discriminate.
  case_decide; [discriminate|]. destruct (has_null _); [discriminate|].
  intros [= <-]. eauto.
Qed.

Lemma PostForm_is_valid_inv db (data : gmap string Value) cleaned_data :
  PostForm.is_valid db data = Some cleaned_data ->
  exists t x pd (loc cat : option Z),
    data !! "title" = Some (VStr t)
    /\ data !! "text" = Some (VStr x)
    /\ data !! "pub_date" = Some (VInt pd)
    /\ data !! "location" = VInt <$> loc
    /\ data !! "category" = VInt <$> cat
    /\ strip t <> "" /\ strip x <> ""
    /\ (forall k, cat = Some k -> is_Some (categories db !! k))
    /\ cleaned_data
       = <["title" := Some (VStr (strip t))]>
           (<["text" := Some (VStr (strip x))]>
              (<["pub_date" := Some (VInt pd)]>
                 (<["location" := VInt <$> loc]>
                    (<["category" := VInt <$> cat]> ∅)))).
Proof.
  unfold PostForm.is_valid. rewrite PostForm_fields_eq.
  cbn [full_clean foldr].
  change (PostForm.clean_field db "title" (data !! "title"))
    with (clean_CharField (data !! "title")).
  change (PostForm.clean_field db "text" (data !! "text"))
    with (clean_CharField (data !! "text")).
  change (PostForm.clean_field db "pub_date" (data !! "pub_date"))
    with (clean_DateTimeField (data !! "pub_date")).
  change (PostForm.clean_field db "location" (data !! "location"))
    with (clean_ModelChoiceField (locations db) (data !! "location")).
  change (PostForm.clean_field db "category" (data !! "category"))
    with (clean_ModelChoiceField (dom (categories db)) (data !! "category")).
  destruct (clean_ModelChoiceField (dom (categories db)) _) as [vc|] eqn:Ec;
    [|discriminate].
  destruct (clean_ModelChoiceField (locations db) _) as [vl|] eqn:El;
    [|discriminate].
  destruct (clean_DateTimeField _) as [vd|] eqn:Ed; [|discriminate].
  destruct (clean_CharField (data !! "text")) as [vx|] eqn:Ex; [|discriminate].
  destruct (clean_CharField (data !! "title")) as [vt|] eqn:Et;
    [|discriminate].
  intros [= <-].
  apply clean_ModelChoiceField_inv in Ec as (cat & Hc & -> & Hcat).
  apply clean_ModelChoiceField_inv in El as (loc & Hl & -> & _).
  apply clean_CharField_inv in Ex as (x & Hx & Hxne & ->).
  apply clean_CharField_inv in Et as (t & Ht & Htne & ->).
  unfold clean_DateTimeField in Ed.
  destruct (data !! "pub_date") as [[?|pd|?]|]; try discriminate.
  injection Ed as <-.
  exists t, x, pd, loc, cat. repeat split; try done.
  intros k ->. apply elem_of_dom. by apply Hcat.
Qed.

Lemma PostForm_instance_of_cleaned t x pd (loc cat : option Z) (p : Post.t) :
  PostForm.instance_of
    (<["title" := Some (VStr t)]>
       (<["text" := Some (VStr x)]>
          (<["pub_date" := Some (VInt pd)]>
             (<["location" := VInt <$> loc]>
                (<["category" := VInt <$> cat]> ∅))))) p
  = Post.mk t x pd (Post.author p) loc cat (Post.is_published p)
      (Post.created_at p).
Proof.
  set (m := <["title" := _]> _).
  assert (Ht : m !! "title" = Some (Some (VStr t))) by done.
  assert (Hx : m !! "text" = Some (Some (VStr x))) by done.
  assert (Hd : m !! "pub_date" = Some (Some (VInt pd))) by done.
  assert (Hl : m !! "location" = Some (VInt <$> loc)) by done.
  assert (Hc : m !! "category" = Some (VInt <$> cat)) by done.
  clearbody m.
  unfold PostForm.instance_of. rewrite PostForm_fields_eq.
  cbn [construct_instance foldr]. rewrite Ht, Hx, Hd, Hl, Hc.
  destruct p, loc, cat; reflexivity.
Qed.

(** A valid submission to the create view stores the submitted title and
    text without the white space around them, and the date, the location
    and the category that were submitted, under a key that was free; all
    other posts stay as they are. *)
Theorem created_post_carries_the_submitted_fields d db now (req : Request) v
    cleaned_data :
  user req = Some v ->
  method req = POST ->
  PostForm.is_valid db (POST_data req) = Some cleaned_data ->
  exists t x pd (loc cat : option Z) k,
    POST_data req !! "title" = Some (VStr t)
    /\ POST_data req !! "text" = Some (VStr x)
    /\ POST_data req !! "pub_date" = Some (VInt pd)
    /\ POST_data req !! "location" = VInt <$> loc
    /\ POST_data req !! "category" = VInt <$> cat
    /\ posts db !! k = None
    /\ urlpatterns d create_post req now db
       = (HttpResponseRedirect (to_route (profile (User.username v.2))),
          set_posts db
            (<[k := Post.mk (strip t) (strip x) pd v.1 loc cat d now]>
               (posts db))).
Proof.
  intros Hu Hm Hvalid.
  destruct (PostForm_is_valid_inv _ _ _ Hvalid)
    as (t & x & pd & loc & cat & Ht & Hx & Hd & Hl & Hc & _ & _ & _ & ->).
  exists t, x, pd, loc, cat, (next_pk (posts db)). do 5 (split; [done|]).
  split; [apply next_pk_fresh|].
  unfold_views. unfold PostCreateView.form_valid.
  rewrite Hu, Hm, Hvalid, PostForm_instance_of_cleaned. reflexivity.
Qed.

Lemma created_post_carries_the_submitted_fields_witness :
  exists t x pd (loc cat : option Z) k,
    posts sample_db !! k = None
    /\ urlpatterns true create_post
         (request_of POST (Some (2, bob))
            {[ "title" := VStr " Hello "; "text" := VStr "World";
               "pub_date" := VInt 150; "category" := VInt 1 ]})
         sample_now sample_db
       = (HttpResponseRedirect (to_route (profile "bob")),
          set_posts sample_db
            (<[k := Post.mk (strip t) (strip x) pd 2 loc cat true sample_now]>
               (posts sample_db))).
Proof.
  destruct (created_post_carries_the_submitted_fields true sample_db
              sample_now
              (request_of POST (Some (2, bob))
                 {[ "title" := VStr " Hello "; "text" := VStr "World";
                    "pub_date" := VInt 150; "category" := VInt 1 ]})
              (2, bob)
              {[ "title" := Some (VStr "Hello"); "text" := Some (VStr "World");
                 "pub_date" := Some (VInt 150); "location" := None;
                 "category" := Some (VInt 1) ]}
              eq_refl eq_refl)
    as (t & x & pd & loc & cat & k & _ & _ & _ & _ & _ & Hk & Hresp).
  - vm_compute. reflexivity.
  - exists t, x, pd, loc, cat, k. split; [exact Hk | exact Hresp].
Defined.

(** The author's valid edit of a post replaces title, text, date,
    location and category by what was submitted, keeps [author],
    [is_published] and [created_at], keeps every other post, and is
    answered with the redirect to the detail page of the post. *)
Theorem post_edit_replaces_the_form_fields d db now (req : Request) v id p
    cleaned_data :
  user req = Some v ->
  posts db !! id = Some p ->
  Post.author p = v.1 ->
  method req = POST ->
  PostForm.is_valid db (POST_data req) = Some cleaned_data ->
  exists t x pd (loc cat : option Z),
    POST_data req !! "title" = Some (VStr t)
    /\ POST_data req !! "text" = Some (VStr x)
    /\ POST_data req !! "pub_date" = Some (VInt pd)
    /\ POST_data req !! "location" = VInt <$> loc
    /\ POST_data req !! "category" = VInt <$> cat
    /\ urlpatterns d (edit_post id) req now db
       = (HttpResponseRedirect (to_route (post_detail id)),
          set_posts db
            (<[id := Post.mk (strip t) (strip x) pd (Post.author p) loc cat
                       (Post.is_published p) (Post.created_at p)]>
               (posts db))).
Proof.
  intros Hu Hp Ha Hm Hvalid.
  destruct (PostForm_is_valid_inv _ _ _ Hvalid)
    as (t & x & pd & loc & cat & Ht & Hx & Hd & Hl & Hc & _ & _ & _ & ->).
  exists t, x, pd, loc, cat. do 5 (split; [done|]).
  unfold_views. rewrite Hp. cbn [fst snd].
  rewrite Ha, (user_is_self req v Hu), Hu, Hm, Hvalid,
    PostForm_instance_of_cleaned, Ha.
  reflexivity.
Qed.

Lemma post_edit_replaces_the_form_fields_witness :
  exists t x pd (loc cat : option Z),
    urlpatterns true (edit_post 2)
      (request_of POST (Some (1, alice))
         {[ "title" := VStr "Notes"; "text" := VStr "Now";
            "pub_date" := VInt 105 ]})
      sample_now sample_db
    = (HttpResponseRedirect (to_route (post_detail 2)),
       set_posts sample_db
         (<[2 := Post.mk (strip t) (strip x) pd 1 loc cat false 91]>
            (posts sample_db))).
Proof.
  destruct (post_edit_replaces_the_form_fields true sample_db sample_now
              (request_of POST (Some (1, alice))
                 {[ "title" := VStr "Notes"; "text" := VStr "Now";
                    "pub_date" := VInt 105 ]})
              (1, alice) 2 post_unpublished
              {[ "title" := Some (VStr "Notes"); "text" := Some (VStr "Now");
                 "pub_date" := Some (VInt 105); "location" := None;
                 "category" := None ]}
              eq_refl eq_refl eq_refl eq_refl)
    as (t & x & pd & loc & cat & _ & _ & _ & _ & _ & Hresp).
  - vm_compute. reflexivity.
  - exists t, x, pd, loc, cat. exact Hresp.
Defined.

(** The author's delete of a post is answered with the redirect to the
    author's profile page.  The post is gone, every other post stays,
    users and categories stay, and so do the comments on other posts;
    afterwards the detail page of the post is not found. *)
Theorem post_delete_removes_that_post d db now (req : Request) v id p :
  user req = Some v ->
  posts db !! id = Some p ->
  Post.author p = v.1 ->
  method req = POST ->
  (urlpatterns d (delete_post id) req now db).1
    = HttpResponseRedirect (to_route (profile (User.username v.2)))
  /\ posts (urlpatterns d (delete_post id) req now db).2
     = delete id (posts db)
  /\ users (urlpatterns d (delete_post id) req now db).2 = users db
  /\ categories (urlpatterns d (delete_post id) req now db).2 = categories db
  /\ (forall k c,
        comments db !! k = Some c -> Comment.post c <> id ->
        comments (urlpatterns d (delete_post id) req now db).2 !! k = Some c)
  /\ (forall (req' : Request) now',
        method req' = GET ->
        (urlpatterns d (post_detail id) req' now'
           (urlpatterns d (delete_post id) req now db).2).1
        = HttpResponseNotFound).
Proof.
  intros Hu Hp Ha Hm. unfold_views. rewrite Hp. cbn [fst snd].
  rewrite Ha, (user_is_self req v Hu), Hu, Hm. cbn [negb fst snd].
  repeat split.
  - intros k c Hc Hne. cbn [set_comments comments].
    by apply map_lookup_filter_Some.
  - intros req' now' Hm'. rewrite Hm'. unfold PostDetailView.get.
    rewrite PostDetailView_get_object_missing; [done|].
    cbn [set_comments set_posts posts]. apply lookup_delete_eq.
Qed.

Lemma post_delete_removes_that_post_witness :
  (urlpatterns true (delete_post 1) (request_of POST (Some (1, alice)) ∅)
     sample_now sample_db).1
  = HttpResponseRedirect (to_route (profile "alice"))
  /\ posts (urlpatterns true (delete_post 1)
              (request_of POST (Some (1, alice)) ∅) sample_now sample_db).2
     = delete 1 (posts sample_db).
Proof.
  destruct (post_delete_removes_that_post true sample_db sample_now
              (request_of POST (Some (1, alice)) ∅) (1, alice) 1 post_public
              eq_refl eq_refl eq_refl eq_refl) as (Hresp & Hposts & _).
  split; [exact Hresp | exact Hposts].
Defined.

(** The redirect after a create leads to a page that shows the new post:
    for its author the created post is on the profile page the response
    points to, whatever its date, category and publication state. *)
Theorem created_post_is_on_the_profile_of_its_author d db now now'
    (req : Request) v cleaned_data :
  unique_usernames db ->
  users db !! v.1 = Some v.2 ->
  user req = Some v ->
  method req = POST ->
  PostForm.is_valid db (POST_data req) = Some cleaned_data ->
  exists p,
    urlpatterns d create_post req now db
    = (HttpResponseRedirect (to_route (profile (User.username v.2))),
       set_posts db (<[next_pk (posts db) := p]> (posts db)))
    /\ appears_in (urlpatterns d (profile (User.username v.2))) (Some v) now'
         (set_posts db (<[next_pk (posts db) := p]> (posts db)))
         (next_pk (posts db), p).
Proof.
  intros Huniq Hv Hu Hm Hvalid.
  destruct (PostCreateView_creates d db now req v cleaned_data Hu Hm Hvalid)
    as (p & Hresp & _ & Ha & _).
  exists p. split; [done|]. cbn [urlpatterns]. destruct v as [o u].
  apply (profile_listing_for_owner _ now' o u u); [done | done |].
  cbn [set_posts posts fst snd]. split; [apply lookup_insert_eq | done].
Qed.

Lemma created_post_is_on_the_profile_of_its_author_witness :
  exists p,
    appears_in (urlpatterns true (profile "bob")) (Some (2, bob)) 500
      (set_posts sample_db (<[6 := p]> (posts sample_db))) (6, p).
Proof.
  destruct (created_post_is_on_the_profile_of_its_author true sample_db
              sample_now 500
              (request_of POST (Some (2, bob))
                 {[ "title" := VStr "Draft"; "text" := VStr "Later";
                    "pub_date" := VInt 900 ]})
              (2, bob)
              {[ "title" := Some (VStr "Draft"); "text" := Some (VStr "Later");
                 "pub_date" := Some (VInt 900); "location" := None;
                 "category" := None ]}
              sample_db_unique_usernames eq_refl eq_refl eq_refl)
    as (p & _ & Happ).
  - vm_compute. reflexivity.
  - exists p. exact Happ.
Defined.

(** ** The detail page *)

(** The author of a post, and anybody when the post is publicly visible,
    gets the detail page of the post; the comments in its context are
    exactly the stored comments that refer to the post. *)
Theorem detail_page_shows_the_post_and_its_comments d db now (req : Request)
    id p :
  posts db !! id = Some p ->
  user_is req (Post.author p) = true \/ publicly_visible db now p ->
  method req = GET ->
  exists cs,
    urlpatterns d (post_detail id) req now db
    = (TemplateResponse "blog/detail.html" (DetailContext (id, p) cs), db)
    /\ forall k c,
         (k, c) ∈ cs <-> comments db !! k = Some c /\ Comment.post c = id.
Proof.
  intros Hp Hsee Hm.
  assert (Hget : PostDetailView.get_object req now db id = Return (id, p)).
  { destruct (user_is req (Post.author p)) eqn:Hown.
    - unfold PostDetailView.get_object, get_by_pk. rewrite Hp. simpl.
      by rewrite Hown.
    - destruct Hsee as [?|Hvis]; [done|].
      destruct Hvis as (Hpub & (c & cat & Hc & Hcat & Hcpub) & Hdate).
      apply (PostDetailView_get_object_with_category db now req id p c cat);
        [done..|].
      right. unfold publicly_visible. eauto 10. }
  unfold_views. unfold PostDetailView.get. rewrite Hm, Hget. simpl.
  eexists. split; [reflexivity|].
  intros k c.
  rewrite merge_sort_Permutation, list_elem_of_filter, elem_of_map_to_list.
  simpl. tauto.
Qed.

Lemma detail_page_shows_the_post_and_its_comments_witness :
  exists cs,
    urlpatterns true (post_detail 2) (request_of GET (Some (1, alice)) ∅)
      sample_now sample_db
    = (TemplateResponse "blog/detail.html"
         (DetailContext (2, post_unpublished) cs), sample_db)
    /\ forall k c,
         (k, c) ∈ cs
         <-> comments sample_db !! k = Some c /\ Comment.post c = 2.
Proof.
  apply (detail_page_shows_the_post_and_its_comments true sample_db sample_now
           (request_of GET (Some (1, alice)) ∅) 2 post_unpublished).
  - reflexivity.
  - left. reflexivity.
  - reflexivity.
Defined.

(** ** Submissions that do not validate *)

(** A submission whose form does not validate stores nothing and gets
    the form back with its errors. *)
Lemma form_invalid_renders_the_form_again d db now (req : Request) v :
  user req = Some v ->
  method req = POST ->
  (PostForm.is_valid db (POST_data req) = None ->
     urlpatterns d create_post req now db
       = (TemplateResponse "blog/create.html" (FormContext true), db)
     /\ forall id p,
          posts db !! id = Some p -> Post.author p = v.1 ->
          urlpatterns d (edit_post id) req now db
          = (TemplateResponse "blog/create.html" (FormContext true), db))
  /\ (CommentForm.is_valid (POST_data req) = None ->
        (forall id,
            urlpatterns d (add_comment id) req now db
            = (TemplateResponse "blog/comment.html" (FormContext true), db))
        /\ forall id comment c,
             comments db !! comment = Some c -> Comment.author c = v.1 ->
             urlpatterns d (edit_comment id comment) req now db
             = (TemplateResponse "blog/comment.html" (FormContext true), db))
  /\ (ProfileForm.is_valid db v.1 (POST_data req) = None ->
        urlpatterns d edit_profile req now db
        = (TemplateResponse "blog/user.html" (FormContext true), db)).
Proof.
  intros Hu Hm. split; [|split].
  - intros Hbad. split.
    + unfold_views. by rewrite Hu, Hm, Hbad.
    + intros id p Hp Ha. unfold_views. rewrite Hp. cbn [fst snd].
      by rewrite Ha, (user_is_self req v Hu), Hu, Hm, Hbad.
  - intros Hbad. split.
    + intros id. unfold_views. by rewrite Hu, Hm, Hbad.
    + intros id comment c Hc Ha. unfold_views. rewrite Hc. cbn [fst snd].
      by rewrite Ha, (user_is_self req v Hu), Hu, Hm, Hbad.
  - intros Hbad. unfold_views. by rewrite Hu, Hm, Hbad.
Qed.

(** ** The profile form *)

Lemma clean_CharField_blank_inv raw v :
  clean_CharField_blank raw = Some v -> exists s, v = Some (VStr s).
Proof.
  unfold clean_CharField_blank. destruct raw as [[s|j|b]|]; try discriminate.
  - destruct (has_null _); [discriminate|]. intros [= <-]. eauto.
  - intros [= <-]. eauto.
Qed.

Lemma ProfileForm_is_valid_inv db pk (data : gmap string Value) cleaned_data :
  ProfileForm.is_valid db pk data = Some cleaned_data ->
  exists f l name e,
    data !! "username" = Some (VStr name)
    /\ strip name <> ""
    /\ (forall k u, users db !! k = Some u -> k <> pk ->
                    User.username u <> strip name)
    /\ cleaned_data
       = <["first_name" := Some (VStr f)]>
           (<["last_name" := Some (VStr l)]>
              (<["username" := Some (VStr (strip name))]>
                 (<["email" := Some (VStr e)]> ∅))).
Proof.
  unfold ProfileForm.is_valid, ProfileForm.Meta_fields.
  cbn [full_clean foldr].
  change (ProfileForm.clean_field db pk "first_name" (data !! "first_name"))
    with (clean_CharField_blank (data !! "first_name")).
  change (ProfileForm.clean_field db pk "last_name" (data !! "last_name"))
    with (clean_CharField_blank (data !! "last_name")).
  change (ProfileForm.clean_field db pk "email" (data !! "email"))
    with (clean_CharField_blank (data !! "email")).
  change (ProfileForm.clean_field db pk "username" (data !! "username"))
    with (match clean_CharField (data !! "username") with
          | Some (Some (VStr s)) =>
              if decide (Exists (fun u : instance User.t =>
                                   u.1 <> pk /\ User.username u.2 = s)
                                (map_to_list (users db)))
              then None else Some (Some (VStr s))
          | _ => None
          end).
  destruct (clean_CharField_blank (data !! "email")) as [ve|] eqn:Ee;
    [|discriminate].
  destruct (clean_CharField (data !! "username")) as [vu|] eqn:Eu;
    [|discriminate].
  apply clean_CharField_inv in Eu as (name & Hname & Hne & ->).
  simpl. case_decide as Hex; [discriminate|]. simpl.
  destruct (clean_CharField_blank (data !! "last_name")) as [vl|] eqn:El;
    [|discriminate].
  destruct (clean_CharField_blank (data !! "first_name")) as [vf|] eqn:Ef;
    [|discriminate].
  intros [= <-].
  apply clean_CharField_blank_inv in Ee as [e ->].
  apply clean_CharField_blank_inv in El as [l ->].
  apply clean_CharField_blank_inv in Ef as [f ->].
  exists f, l, name, e. repeat split; try done.
  intros k u Hk Hkpk Hu. apply Hex, Exists_exists.
  exists (k, u). split; [by apply elem_of_map_to_list | done].
Qed.

Lemma ProfileForm_instance_of_cleaned f l name e (u : User.t) :
  ProfileForm.instance_of
    (<["first_name" := Some (VStr f)]>
       (<["last_name" := Some (VStr l)]>
          (<["username" := Some (VStr name)]>
             (<["email" := Some (VStr e)]> ∅)))) u
  = User.mk name f l e.
Proof. reflexivity. Qed.

(** Usernames that are unique stay unique through any request to the
    profile view. *)
Theorem profile_edit_keeps_usernames_unique d db now (req : Request) :
  unique_usernames db ->
  unique_usernames (urlpatterns d edit_profile req now db).2.
Proof.
  intros Huniq. unfold_views.
  destruct (user req) as [v|]; [|done].
  destruct (method req); [done|].
  destruct (ProfileForm.is_valid db v.1 (POST_data req)) as [cleaned|] eqn:E;
    [|done].
  destruct (ProfileForm_is_valid_inv _ _ _ _ E)
    as (f & l & name & e & _ & _ & Hfree & ->).
  rewrite ProfileForm_instance_of_cleaned.
  intros i j a b. cbn [snd set_users users].
  rewrite !lookup_insert. repeat case_decide; subst.
  - done.
  - intros [= <-] Hb Heq. exfalso. by eapply (Hfree j b).
  - intros Ha [= <-] Heq. exfalso. by eapply (Hfree i a).
  - apply Huniq.
Qed.

Lemma profile_edit_keeps_usernames_unique_witness :
  unique_usernames
    (urlpatterns true edit_profile
       (request_of POST (Some (2, bob)) {[ "username" := VStr "robert" ]})
       sample_now sample_db).2.
Proof.
  apply (profile_edit_keeps_usernames_unique true sample_db sample_now
           (request_of POST (Some (2, bob)) {[ "username" := VStr "robert" ]})).
  exact sample_db_unique_usernames.
Defined.

(** The profile view writes the row of the session user and no other
    row, and it leaves the posts and the comments alone.  When it answers
    with a redirect to a page of the application, that page is the
    profile page under the username now stored for the session user. *)
Theorem profile_view_writes_the_session_row_only d db now (req : Request) :
  posts (urlpatterns d edit_profile req now db).2 = posts db
  /\ comments (urlpatterns d edit_profile req now db).2 = comments db
  /\ (forall k,
        (forall v, user req = Some v -> k <> v.1) ->
        users (urlpatterns d edit_profile req now db).2 !! k = users db !! k)
  /\ (forall t,
        (urlpatterns d edit_profile req now db).1
          = HttpResponseRedirect (to_route t) ->
        exists v saved,
          user req = Some v
          /\ users (urlpatterns d edit_profile req now db).2 !! v.1
             = Some saved
          /\ t = profile (User.username saved)).
Proof.
  unfold_views.
  destruct (user req) as [v|]; [|repeat split; intros; done].
  destruct (method req); [repeat split; intros; done|].
  destruct (ProfileForm.is_valid db v.1 (POST_data req)) as [cleaned|];
    [|repeat split; intros; done].
  cbn [fst snd set_users users posts comments]. repeat split.
  - intros k Hk. apply lookup_insert_ne. intros <-. by apply (Hk v).
  - intros t [= <-]. exists v. eexists. split; [done|].
    split; [apply lookup_insert_eq | done].
Qed.

Lemma profile_view_writes_the_session_row_only_witness :
  users
    (urlpatterns true edit_profile
       (request_of POST (Some (2, bob)) {[ "username" := VStr "robert" ]})
       sample_now sample_db).2 !! 1 = Some alice
  /\ exists (v : instance User.t) saved,
       users
         (urlpatterns true edit_profile
            (request_of POST (Some (2, bob)) {[ "username" := VStr "robert" ]})
            sample_now sample_db).2 !! v.1 = Some saved
       /\ profile "robert" = profile (User.username saved).
Proof.
  destruct (profile_view_writes_the_session_row_only true sample_db sample_now
              (request_of POST (Some (2, bob))
                 {[ "username" := VStr "robert" ]}))
    as (_ & _ & Hother & Hredirect).
  split.
  - rewrite (Hother 1); [reflexivity|]. intros v [= <-]. discriminate.
  - destruct (Hredirect (profile "robert")) as (v & saved & _ & Hsaved & Ht).
    + vm_compute. reflexivity.
    + exists v, saved. split; [exact Hsaved | exact Ht].
Defined.

(** ** Walking the pages *)

Lemma Paginator_page_in_range {A} (per_page : Z) (l : list A) n :
  0 < per_page ->
  1 <= n <= Paginator_num_pages per_page (Z.of_nat (length l)) ->
  Paginator_page per_page l n
  = Return (take (Z.to_nat per_page) (drop (Z.to_nat ((n - 1) * per_page)) l)).
Proof.
  intros Hpp [Hlo Hhi]. unfold Paginator_page.
  rewrite decide_False by lia. rewrite decide_False by lia.
  f_equal. case_decide; [|f_equal; lia].
  rewrite !take_ge; [done| |]; rewrite length_drop; lia.
Qed.

Lemma Paginator_page_out_of_range {A} (per_page : Z) (l : list A) n :
  n < 1 \/ Paginator_num_pages per_page (Z.of_nat (length l)) < n ->
  Paginator_page per_page l n = Raise Http404.
Proof.
  intros Hn. unfold Paginator_page.
  destruct (decide (n < 1)); [done|]. rewrite decide_True by lia. done.
Qed.

Lemma chunks_concat {A} (k size : nat) (l : list A) :
  (length l <= k * size)%nat ->
  concat ((fun i => take size (drop (i * size) l)) <$> seq 0 k) = l.
Proof.
  revert l. induction k as [|k IH]; intros l Hlen.
  - destruct l; [done|]. simpl in Hlen. lia.
  - cbn [seq fmap list_fmap concat]. rewrite <- fmap_S_seq, <- list_fmap_compose.
    etrans; [|apply (take_drop size l)]. f_equal.
    etrans; [|apply (IH (drop size l)); rewrite length_drop; lia].
    f_equal. apply list_fmap_ext. intros _ i _. simpl.
    rewrite drop_drop. do 2 f_equal; lia.
Qed.

Lemma Paginator_num_pages_covers (per_page count : Z) :
  0 < per_page -> 0 <= count ->
  1 <= Paginator_num_pages per_page count
  /\ count <= Paginator_num_pages per_page count * per_page.
Proof.
  intros Hpp Hc. unfold Paginator_num_pages.
  set (h := Z.max 1 count).
  pose proof (Z.div_mod (h + per_page - 1) per_page ltac:(lia)) as Hdm.
  pose proof (Z.mod_pos_bound (h + per_page - 1) per_page Hpp) as Hmod.
  split.
  - apply Z.div_le_lower_bound; lia.
  - nia.
Qed.

(** The pages of the index, requested one after the other from page 1,
    are answered with the listing cut into consecutive pieces: put
    together again they give every publicly visible post once, in the
    order of the listing.  The page after the last one and page 0 are not
    found. *)
Theorem index_pages_partition_the_listing d db now viewer data :
  exists pgs,
    concat pgs = PostListView.get_queryset db now
    /\ (forall (i : nat) pg,
          pgs !! i = Some pg ->
          (urlpatterns d index
             (mkRequest GET viewer (page_int (Z.of_nat (S i))) data) now db).1
          = TemplateResponse "blog/index.html" (ListContext pg))
    /\ (urlpatterns d index
          (mkRequest GET viewer (page_int (Z.of_nat (S (length pgs)))) data)
          now db).1
       = HttpResponseNotFound
    /\ (urlpatterns d index (mkRequest GET viewer (page_int 0) data) now db).1
       = HttpResponseNotFound.
Proof.
  set (rows := PostListView.get_queryset db now).
  set (N := Z.to_nat (Paginator_num_pages 10 (Z.of_nat (length rows)))).
  destruct (Paginator_num_pages_covers 10 (Z.of_nat (length rows)))
    as [Hone Hcov]; [lia..|].
  exists ((fun i => take 10 (drop (i * 10) rows)) <$> seq 0 N).
  split; [|split; [|split]].
  - apply chunks_concat. subst N. lia.
  - intros i pg Hi. apply list_lookup_fmap_Some in Hi as (j & Hpg & Hj).
    apply lookup_seq in Hj as [-> Hlt]. simpl in Hpg. subst pg.
    unfold_views. unfold PostListView.get. cbn [method page fst].
    fold rows. cbn [paginate_queryset].
    change PostListView.paginate_by with 10.
    rewrite Paginator_page_in_range by (subst N; lia).
    replace (Z.to_nat ((Z.of_nat (S i) - 1) * 10)) with (i * 10)%nat by lia.
    done.
  - rewrite length_fmap, length_seq.
    unfold_views. unfold PostListView.get. cbn [method page fst].
    fold rows. cbn [paginate_queryset].
    change PostListView.paginate_by with 10.
    rewrite Paginator_page_out_of_range; [done|].
    subst N. lia.
  - unfold_views. unfold PostListView.get. cbn [method page fst].
    cbn [paginate_queryset].
    rewrite Paginator_page_out_of_range; [done|]. lia.
Qed.

(** ** Tables that the views do not write *)

(** No request writes the categories or the locations, and only the
    profile view writes the users. *)
Theorem categories_and_locations_are_never_written d r (req : Request) now
    db :
  categories (urlpatterns d r req now db).2 = categories db
  /\ locations (urlpatterns d r req now db).2 = locations db
  /\ (r <> edit_profile -> users (urlpatterns d r req now db).2 = users db).
Proof.
  destruct r; unfold_views; unfold PostCreateView.form_valid,
    CommentCreateView.form_valid;
    repeat match goal with
           | |- context [match ?x with _ => _ end] => destruct x
           end; done.
Qed.

(** A stored comment is different after a request, or gone, only when
    the request comes from the author of the comment and goes to the edit
    or delete route of that comment, or comes from the author of the post
    the comment belongs to and goes to the delete route of that post. *)
Theorem stored_comment_changes_only_for_its_owners d r (req : Request) now db
    k c :
  comments db !! k = Some c ->
  comments (urlpatterns d r req now db).2 !! k <> Some c ->
  (user_is req (Comment.author c) = true
   /\ exists id, r = edit_comment id k \/ r = delete_comment id k)
  \/ (r = delete_post (Comment.post c)
      /\ exists p, posts db !! Comment.post c = Some p
                   /\ user_is req (Post.author p) = true).
Proof.
  intros Hc. destruct r; unfold_views; try (by intros []);
    try (by destruct (method req); intros []).
  - destruct (user req); [|by intros []].
    destruct (method req); [by intros []|].
    destruct (PostForm.is_valid db (POST_data req)); by intros [].
  - destruct (posts db !! id) as [q|] eqn:Hq; [|by intros []]. cbn [fst snd].
    destruct (negb _); [by intros []|].
    destruct (user req); [|by intros []].
    destruct (method req); [by intros []|].
    destruct (PostForm.is_valid db (POST_data req)); by intros [].
  - destruct (posts db !! id) as [q|] eqn:Hq; [|by intros []]. cbn [fst snd].
    destruct (user_is req (Post.author q)) eqn:Hown; [|by intros []].
    cbn [negb]. destruct (user req); [|by intros []].
    destruct (method req); [by intros []|].
    cbn [snd set_comments comments]. intros Hgone. right.
    destruct (decide (Comment.post c = id)) as [<-|Hne]; [by eauto|].
    exfalso. apply Hgone. by apply map_lookup_filter_Some.
  - destruct (user req) as [u|]; [|by intros []].
    destruct (method req); [by intros []|].
    destruct (ProfileForm.is_valid db u.1 (POST_data req)); by intros [].
  - destruct (user req); [|by intros []].
    destruct (method req); [by intros []|].
    destruct (CommentForm.is_valid (POST_data req)); [|by intros []].
    unfold CommentCreateView.form_valid.
    destruct (CommentCreateView.posting now db id); [|by intros []].
    cbn [snd set_comments comments].
    rewrite lookup_insert_ne; [by intros []|].
    intros Heq. rewrite <- Heq, next_pk_fresh in Hc. discriminate.
  - destruct (comments db !! comment) as [c'|] eqn:Hc'; [|by intros []].
    cbn [fst snd].
    destruct (user_is req (Comment.author c')) eqn:Hown; [|by intros []].
    cbn [negb]. destruct (user req); [|by intros []].
    destruct (method req); [by intros []|].
    destruct (CommentForm.is_valid (POST_data req)); [|by intros []].
    cbn [snd set_comments comments].
    destruct (decide (comment = k)) as [->|Hne].
    + intros _. assert (c' = c) as -> by congruence. eauto 10.
    + rewrite lookup_insert_ne by done. by intros [].
  - destruct (comments db !! comment) as [c'|] eqn:Hc'; [|by intros []].
    cbn [fst snd].
    destruct (user_is req (Comment.author c')) eqn:Hown; [|by intros []].
    cbn [negb]. destruct (user req); [|by intros []].
    destruct (method req); [by intros []|].
    cbn [snd set_comments comments].
    destruct (decide (comment = k)) as [->|Hne].
    + intros _. assert (c' = c) as -> by congruence. eauto 10.
    + rewrite lookup_delete_ne by done. by intros [].
Qed.

Lemma stored_comment_changes_only_for_its_owners_witness :
  (user_is (request_of POST (Some (2, bob)) ∅)
     (Comment.author comment_by_bob) = true
   /\ exists id, delete_comment 1 1 = edit_comment id 1
                 \/ delete_comment 1 1 = delete_comment id 1)
  \/ (delete_comment 1 1 = delete_post (Comment.post comment_by_bob)
      /\ exists p, posts sample_db !! Comment.post comment_by_bob = Some p
                   /\ user_is (request_of POST (Some (2, bob)) ∅)
                        (Post.author p) = true).
Proof.
  apply (stored_comment_changes_only_for_its_owners true (delete_comment 1 1)
           (request_of POST (Some (2, bob)) ∅) sample_now sample_db 1
           comment_by_bob).
  - reflexivity.
  - vm_compute. discriminate.
Defined.

Lemma categories_and_locations_are_never_written_witness :
  categories
    (urlpatterns true (delete_post 1) (request_of POST (Some (1, alice)) ∅)
       sample_now sample_db).2 = categories sample_db
  /\ users
       (urlpatterns true (delete_post 1) (request_of POST (Some (1, alice)) ∅)
          sample_now sample_db).2 = users sample_db.
Proof.
  destruct (categories_and_locations_are_never_written true (delete_post 1)
              (request_of POST (Some (1, alice)) ∅) sample_now sample_db)
    as (Hc & _ & Hu).
  split; [exact Hc | apply Hu; discriminate].
Defined.

Lemma index_pages_partition_the_listing_witness :
  exists pgs,
    concat pgs = PostListView.get_queryset sample_db sample_now
    /\ (urlpatterns true index
          (mkRequest GET None (page_int (Z.of_nat (S (length pgs)))) ∅)
          sample_now sample_db).1
       = HttpResponseNotFound.
Proof.
  destruct (index_pages_partition_the_listing true sample_db sample_now None ∅)
    as (pgs & Hcat & _ & Hlast & _).
  exists pgs. split; [exact Hcat | exact Hlast].
Defined.

(** ** Required fields left blank *)

Lemma left_blank_not_cleaned (data : gmap string Value) name s :
  left_blank data name ->
  data !! name = Some (VStr s) ->
  strip s = "".
Proof.
  intros [Hnone|(s' & Hs' & Hblank)] Hs; [congruence|].
  rewrite Hs in Hs'. by injection Hs' as ->.
Qed.

Lemma CommentForm_refuses_blank_text (data : gmap string Value) :
  left_blank data "text" -> CommentForm.is_valid data = None.
Proof.
  intros Hblank.
  destruct (CommentForm.is_valid data) as [cleaned|] eqn:E; [|done].
  destruct (CommentForm_is_valid_inv _ _ E) as (s & Hs & Hne & _).
  exfalso. apply Hne. by eapply left_blank_not_cleaned.
Qed.

Lemma PostForm_refuses_blank_fields db (data : gmap string Value) :
  left_blank data "title" \/ left_blank data "text"
  \/ data !! "pub_date" = None ->
  PostForm.is_valid db data = None.
Proof.
  intros Hblank.
  destruct (PostForm.is_valid db data) as [cleaned|] eqn:E; [|done].
  destruct (PostForm_is_valid_inv _ _ _ E)
    as (t & x & pd & loc & cat & Ht & Hx & Hd & _ & _ & Htne & Hxne & _).
  exfalso. destruct Hblank as [Hb|[Hb|Hb]].
  - apply Htne. by eapply left_blank_not_cleaned.
  - apply Hxne. by eapply left_blank_not_cleaned.
  - congruence.
Qed.

Lemma ProfileForm_refuses_blank_username db pk (data : gmap string Value) :
  left_blank data "username" -> ProfileForm.is_valid db pk data = None.
Proof.
  intros Hblank.
  destruct (ProfileForm.is_valid db pk data) as [cleaned|] eqn:E; [|done].
  destruct (ProfileForm_is_valid_inv _ _ _ _ E)
    as (f & l & name & e & Hname & Hne & _).
  exfalso. apply Hne. by eapply left_blank_not_cleaned.
Qed.

(** A POST by a signed-in user that leaves a required field blank stores
    nothing and gets the form back with its errors: the text on the
    comment view, for any post id, known or not, and on the edit view of
    the user's own comment; the title, the text or the date on the create
    view and on the edit view of the user's own post; the username on the
    profile view. *)
Theorem blank_required_field_gets_the_form_back d db now (req : Request) v :
  user req = Some v ->
  method req = POST ->
  (left_blank (POST_data req) "text" ->
     (forall id,
         urlpatterns d (add_comment id) req now db
         = (TemplateResponse "blog/comment.html" (FormContext true), db))
     /\ forall id comment c,
          comments db !! comment = Some c -> Comment.author c = v.1 ->
          urlpatterns d (edit_comment id comment) req now db
          = (TemplateResponse "blog/comment.html" (FormContext true), db))
  /\ (left_blank (POST_data req) "title" \/ left_blank (POST_data req) "text"
      \/ POST_data req !! "pub_date" = None ->
      urlpatterns d create_post req now db
        = (TemplateResponse "blog/create.html" (FormContext true), db)
      /\ forall id p,
           posts db !! id = Some p -> Post.author p = v.1 ->
           urlpatterns d (edit_post id) req now db
           = (TemplateResponse "blog/create.html" (FormContext true), db))
  /\ (left_blank (POST_data req) "username" ->
      urlpatterns d edit_profile req now db
      = (TemplateResponse "blog/user.html" (FormContext true), db)).
Proof.
  intros Hu Hm.
  destruct (form_invalid_renders_the_form_again d db now req v Hu Hm)
    as (Hpost & Hcomment & Hprofile).
  split; [|split].
  - intros Hblank. by apply Hcomment, CommentForm_refuses_blank_text.
  - intros Hblank. by apply Hpost, PostForm_refuses_blank_fields.
  - intros Hblank. by apply Hprofile, ProfileForm_refuses_blank_username.
Qed.

Lemma blank_required_field_gets_the_form_back_witness :
  urlpatterns true (add_comment 99)
    (request_of POST (Some (2, bob))
       {[ "text" := VStr (utf8 [194; 160; 32]%nat);
          "title" := VStr "No text" ]})
    sample_now sample_db
  = (TemplateResponse "blog/comment.html" (FormContext true), sample_db)
  /\ urlpatterns true create_post
       (request_of POST (Some (2, bob))
          {[ "text" := VStr (utf8 [194; 160; 32]%nat);
             "title" := VStr "No text" ]})
       sample_now sample_db
     = (TemplateResponse "blog/create.html" (FormContext true), sample_db).
Proof.
  assert (Hblank :
    left_blank
      (POST_data
         (request_of POST (Some (2, bob))
            {[ "text" := VStr (utf8 [194; 160; 32]%nat);
               "title" := VStr "No text" ]})) "text").
  { right. exists (utf8 [194; 160; 32]%nat). split; reflexivity. }
  destruct (blank_required_field_gets_the_form_back true sample_db sample_now
              (request_of POST (Some (2, bob))
                 {[ "text" := VStr (utf8 [194; 160; 32]%nat);
                    "title" := VStr "No text" ]})
              (2, bob) eq_refl eq_refl) as (Hcomment & Hpost & _).
  split.
  - apply Hcomment. exact Hblank.
  - apply Hpost. right. left. exact Hblank.
Defined.

(** A comment of white space only, here a no-break space, does not
    validate: on a hidden post it gets the form back, as an empty
    comment does. *)
Example blank_comment_on_hidden_post :
  CommentForm.is_valid {[ "text" := VStr (utf8 [194; 160]%nat) ]} = None
  /\ urlpatterns true (add_comment 2)
       (request_of POST (Some (1, alice))
          {[ "text" := VStr (utf8 [194; 160]%nat) ]})
       sample_now sample_db
     = (TemplateResponse "blog/comment.html" (FormContext true), sample_db).
Proof. split; vm_compute; reflexivity. Qed.
